(** * AutoDeploy Agent: the provisioning workflow and its GitHub client

    A shallow embedding of [src/services/githubService.ts] and of the state
    controller of [src/App.tsx], with the properties of the workflow proved
    over it.

    Conventions of the embedding.
    - A JavaScript string is a [string]; its characters are the 8-bit
      characters of [ascii].
    - An [async] function is a computation in the monad [M]: it threads the
      state of the page and of the outside world and either completes
      normally or throws.  What is thrown is an [Error] object, known by
      its [message], the only part the program reads: every [throw] of the
      repository makes one, and so do [fetch], [response.json()] and
      [localStorage.setItem]; the service modules are taken to do the
      same.
    - Everything outside the repository (the network behind [fetch], the
      Gemini and Vercel service modules, the local storage, [Math.random],
      [Date] and the browser's encoding functions) is a field of the class
      [Environment]; every theorem holds for every environment.
    - The trace records the calls of [fetch] the repository makes, all in
      [githubService.ts], and the calls of the progress callback.  What the
      Gemini and Vercel modules send is theirs and is not recorded.
    - A handler runs to completion before the next one starts. *)

From Stdlib Require Import String Ascii List ZArith Bool Arith Lia.
From Stdlib Require Import DecimalString.
Import ListNotations.

Open Scope list_scope.
Open Scope string_scope.

(* ================================================================= *)
(** ** Strings as JavaScript uses them *)

Definition dquote : string := String "034"%char EmptyString.

(** [haystack.includes(needle)] *)
Fixpoint includes (haystack needle : string) : bool :=
  if String.prefix needle haystack then true
  else match haystack with
       | EmptyString => false
       | String _ rest => includes rest needle
       end.

(** White space and line terminators of ECMAScript among the characters
    0..255: TAB, LF, VT, FF, CR, SP and NBSP. *)
Definition isWhiteSpace (c : ascii) : bool :=
  let n := nat_of_ascii c in
  ((9 <=? n)%nat && (n <=? 13)%nat) || (n =? 32)%nat || (n =? 160)%nat.

Fixpoint trimStart (s : string) : string :=
  match s with
  | EmptyString => EmptyString
  | String c rest => if isWhiteSpace c then trimStart rest else s
  end.

Fixpoint trimEnd (s : string) : string :=
  match s with
  | EmptyString => EmptyString
  | String c rest =>
      match trimEnd rest with
      | EmptyString => if isWhiteSpace c then EmptyString else String c EmptyString
      | kept => String c kept
      end
  end.

(** [s.trim()] *)
Definition trim (s : string) : string := trimEnd (trimStart s).

(** A string in a boolean position: only the empty string is falsy. *)
Definition truthy (s : string) : bool :=
  match s with EmptyString => false | _ => true end.

Fixpoint allWhiteSpace (s : string) : bool :=
  match s with
  | EmptyString => true
  | String c rest => isWhiteSpace c && allWhiteSpace rest
  end.

(** [s] has no occurrence of the character [stop]. *)
Fixpoint avoids (stop : ascii) (s : string) : bool :=
  match s with
  | EmptyString => true
  | String c rest => negb (Ascii.eqb c stop) && avoids stop rest
  end.

(** [`${n}`] for a length *)
Definition showNat (n : nat) : string := NilEmpty.string_of_uint (Nat.to_uint n).

(** [`${v}`] for a property that may be missing *)
Definition showOpt (v : option string) : string :=
  match v with Some s => s | None => "undefined" end.

(* ================================================================= *)
(** ** types.ts *)

(** Modelled from the spec: [types.ts] is not among the sources.  [Step] is
    the workflow stage of the spec's data model, with the six members the
    code names. *)
Inductive Step : Type :=
  CONFIG | PROMPT | GENERATING | REVIEW | DEPLOYING | SUCCESS.

(** Modelled from the spec: the four strings of the persisted configuration,
    under the names [App.tsx] gives them. *)
Record AppConfig : Type := mkAppConfig {
  githubToken : string;
  vercelToken : string;
  githubUsername : string;
  geminiKey : string
}.

(** Modelled from the spec: the severity tag of a log entry. *)
Inductive LogType : Type := info | success | warning | error.

(** Modelled from the spec: a log entry, with the fields [addLog] fills and
    the four severities of the spec. *)
Record LogEntry : Type := mkLogEntry {
  id : string;
  timestamp : Z;
  message : string;
  type : LogType
}.

(** Modelled from the spec: a generated file, its repository-relative path
    and its text. *)
Record FileNode : Type := mkFileNode {
  path : string;
  content : string
}.

(** Modelled from the spec: a generated project, with the fields
    [App.tsx] reads. *)
Record GeneratedProject : Type := mkProject {
  name : string;
  description : string;
  files : list FileNode
}.

(* ================================================================= *)
(** ** The outside world *)

Inductive JsonValue : Type :=
| JString (s : string)
| JBool (b : bool).

(** The arguments of one call of [fetch].  [body] is the object handed to
    [JSON.stringify]; a property whose value is [undefined] is left out, as
    [JSON.stringify] does. *)
Record Request : Type := mkRequest {
  method : string;
  url : string;
  headers : list (string * string);
  body : list (string * JsonValue)
}.

(** A parsed response body that is a JSON object, seen through the
    properties the program reads: [login] and [name], strings, and
    [html_url], [message] and [sha], each a string or missing ([None],
    which the program reads as [undefined]).  Bodies that are not objects, and
    properties that are neither strings nor missing, are outside this
    view. *)
Module Json.
Record t : Type := mk {
  login : string;
  name : string;
  html_url : option string;
  message : option string;
  sha : option string
}.
End Json.

Definition Error : Type := string.

(** [ok] is [response.ok]; [parsed] is what [response.json()] resolves to,
    or the error it rejects with when the body is not JSON. *)
Record Response : Type := mkResponse {
  ok : bool;
  parsed : Json.t + Error
}.

Inductive FetchResult : Type :=
| Resolved (response : Response)
| Rejected (e : Error).

Inductive Completion (A : Type) : Type :=
| Normal (a : A)
| Throw (e : Error).
Arguments Normal {A} a.
Arguments Throw {A} e.

Class Environment : Type := {
  World : Type;
  (** the network behind [fetch] *)
  network : World -> Request -> World * FetchResult;
  (** [services/geminiService.ts]: prompt, mode, key *)
  geminiService :
    World -> string -> string -> string -> World * Completion GeneratedProject;
  (** [services/vercelService.ts]: token, project name, repository *)
  vercelService :
    World -> string -> string -> string -> World * Completion string;
  (** [Math.random().toString(36)] *)
  Math_random : World -> World * string;
  (** [new Date()] *)
  Date_now : World -> World * Z;
  (** [localStorage.setItem]: the error it throws when the browser refuses
      the write (the quota is exceeded, the storage is disabled) *)
  Storage_setItem : World -> AppConfig -> World * option Error;
  (** the encoding functions of the browser, taken to succeed *)
  btoa : string -> string;
  unescape : string -> string;
  encodeURIComponent : string -> string
}.

(** What the program does to the outside, in order: a call of [fetch], or a
    call of the progress callback of [pushFilesToRepo]. *)
Inductive Event : Type :=
| EvFetch (request : Request)
| EvProgress (msg : string).

(* ================================================================= *)
(** ** The state of the page *)

Record AppState : Type := mkAppState {
  step : Step;
  config : AppConfig;
  prompt : string;
  logs : list LogEntry;
  project : option GeneratedProject;
  deploymentUrl : option string;
  repoUrl : option string;
  isLoading : bool
}.

Record Sys `{Environment} : Type := mkSys {
  world : World;
  trace : list Event;
  app : AppState;
  (** the value stored under the key [autodeploy_config] *)
  localStorage : option AppConfig
}.
Arguments mkSys {_} world trace app localStorage.
Arguments world {_} s.
Arguments trace {_} s.
Arguments app {_} s.
Arguments localStorage {_} s.

Section Monad.
Context `{Environment}.

Definition M (A : Type) : Type := Sys -> Sys * Completion A.

Definition ret {A} (a : A) : M A := fun s => (s, Normal a).

Definition throw {A} (e : Error) : M A := fun s => (s, Throw e).

Definition bind {A B} (m : M A) (k : A -> M B) : M B :=
  fun s =>
    match m s with
    | (s1, Normal a) => k a s1
    | (s1, Throw e) => (s1, Throw e)
    end.

(** [try { body } catch (e) { handler }] *)
Definition try_catch {A} (body : M A) (handler : Error -> M A) : M A :=
  fun s =>
    match body s with
    | (s1, Normal a) => (s1, Normal a)
    | (s1, Throw e) => handler e s1
    end.

(** [try { body } finally { cleanup }] *)
Definition try_finally {A} (body : M A) (cleanup : M unit) : M A :=
  fun s =>
    match body s with
    | (s1, r) =>
        match cleanup s1 with
        | (s2, Normal _) => (s2, r)
        | (s2, Throw e) => (s2, Throw e)
        end
    end.

Definition modify_app (f : AppState -> AppState) : M unit :=
  fun s => (mkSys (world s) (trace s) (f (app s)) (localStorage s), Normal tt).

Definition record (ev : Event) : M unit :=
  fun s => (mkSys (world s) (trace s ++ [ev])%list (app s) (localStorage s), Normal tt).

(** One step of the outside world. *)
Definition ask {A} (oracle : World -> World * A) : M A :=
  fun s =>
    match oracle (world s) with
    | (w, a) => (mkSys w (trace s) (app s) (localStorage s), Normal a)
    end.

Definition settle {A} (c : Completion A) : M A :=
  match c with Normal a => ret a | Throw e => throw e end.
End Monad.

Declare Scope js_scope.
Delimit Scope js_scope with js.
Notation "x <- m ;; k" := (bind m (fun x => k))
  (at level 61, m at next level, right associativity) : js_scope.
Notation "m ;; k" := (bind m (fun _ => k))
  (at level 61, right associativity) : js_scope.
Open Scope js_scope.

(* ================================================================= *)
(** ** services/githubService.ts *)

Module Repo.
(** What [createRepository] resolves to, seen through [name] and
    [html_url]; [html_url] is missing when the body the upstream answered
    with has none. *)
Record t : Type := mk {
  name : string;
  html_url : option string
}.
End Repo.

Definition GITHUB_API_BASE : string := "https://api.github.com".

Section GithubService.
Context `{Environment}.

(** [await fetch(url, init)]: the call is recorded, the network answers,
    and a rejected promise is thrown at the [await]. *)
Definition fetch (request : Request) : M Response :=
  record (EvFetch request) ;;
  result <- ask (fun w => network w request) ;;
  match result with
  | Resolved response => ret response
  | Rejected e => throw e
  end.

(** [await response.json()] *)
Definition json (response : Response) : M Json.t :=
  match parsed response with
  | inl data => ret data
  | inr e => throw e
  end.

Definition verifyGithubToken (token : string) : M string :=
  response <- fetch (mkRequest "GET" (GITHUB_API_BASE ++ "/user")
                       [("Authorization", "token " ++ token);
                        ("Accept", "application/vnd.github.v3+json")]
                       []) ;;
  if negb (ok response) then throw "Invalid GitHub Token"
  else
    data <- json response ;;
    ret (Json.login data).

Definition createRepository (token name description : string) : M Repo.t :=
  response <- fetch (mkRequest "POST" (GITHUB_API_BASE ++ "/user/repos")
                       [("Authorization", "token " ++ token);
                        ("Accept", "application/vnd.github.v3+json");
                        ("Content-Type", "application/json")]
                       [("name", JString name);
                        ("description", JString description);
                        ("private", JBool false);
                        ("auto_init", JBool true)]) ;;
  if negb (ok response) then
    err <- json response ;;
    (* If repo exists, we can try to use it *)
    if match Json.message err with
       | Some m => truthy m && includes m "name already exists"
       | None => false
       end
    then
      login <- verifyGithubToken token ;;
      ret (Repo.mk name (Some ("https://github.com/" ++ login ++ "/" ++ name)))
    else
      throw ("GitHub Create Repo Error: " ++ showOpt (Json.message err))
  else
    data <- json response ;;
    ret (Repo.mk (Json.name data) (Json.html_url data)).

(** [for (const x of xs) { body(x) }] *)
Fixpoint for_of {A} (xs : list A) (body : A -> M unit) : M unit :=
  match xs with
  | [] => ret tt
  | x :: rest => body x ;; for_of rest body
  end.

(** A call of the callback handed to [pushFilesToRepo]. *)
Definition invoke (onProgress : string -> M unit) (msg : string) : M unit :=
  record (EvProgress msg) ;; onProgress msg.

Definition contentsUrl (username repoName : string) (file : FileNode) : string :=
  GITHUB_API_BASE ++ "/repos/" ++ username ++ "/" ++ repoName
    ++ "/contents/" ++ path file.

Definition checkRequest (token username repoName : string) (file : FileNode)
  : Request :=
  mkRequest "GET" (contentsUrl username repoName file)
    [("Authorization", "token " ++ token)] [].

Definition putRequest (token username repoName : string) (file : FileNode)
    (sha : option string) : Request :=
  let contentEncoded := btoa (unescape (encodeURIComponent (content file))) in
  mkRequest "PUT" (contentsUrl username repoName file)
    [("Authorization", "token " ++ token);
     ("Accept", "application/vnd.github.v3+json");
     ("Content-Type", "application/json")]
    ([("message", JString ("Add " ++ path file ++ " via AutoDeploy Agent"));
      ("content", JString contentEncoded)]
     ++ match sha with Some v => [("sha", JString v)] | None => [] end)%list.

(** The body of the loop of [pushFilesToRepo]. *)
Definition pushFile (token username repoName : string)
    (onProgress : string -> M unit) (file : FileNode) : M unit :=
  invoke onProgress ("Pushing " ++ path file ++ "...") ;;
  sha <- try_catch
           (checkRes <- fetch (checkRequest token username repoName file) ;;
            if ok checkRes then
              checkData <- json checkRes ;;
              ret (Json.sha checkData)
            else ret None)
           (fun _ => ret None) ;;
  res <- fetch (putRequest token username repoName file sha) ;;
  if negb (ok res) then throw ("Failed to upload " ++ path file)
  else ret tt.

Definition pushFilesToRepo (token username repoName : string)
    (files : list FileNode) (onProgress : string -> M unit) : M unit :=
  for_of files (pushFile token username repoName onProgress).
End GithubService.

(* ================================================================= *)
(** ** App.tsx *)

Definition Step_eqb (a b : Step) : bool :=
  match a, b with
  | CONFIG, CONFIG | PROMPT, PROMPT | GENERATING, GENERATING
  | REVIEW, REVIEW | DEPLOYING, DEPLOYING | SUCCESS, SUCCESS => true
  | _, _ => false
  end.

(** The state of the first render. *)
Definition initialApp : AppState :=
  mkAppState CONFIG (mkAppConfig "" "" "" "") "" [] None None None false.

Section App.
Context `{Environment}.

Definition getApp : M AppState := fun s => (s, Normal (app s)).

Definition setStep (v : Step) : M unit :=
  modify_app (fun a =>
    mkAppState v (config a) (prompt a) (logs a) (project a)
               (deploymentUrl a) (repoUrl a) (isLoading a)).

Definition setConfig (v : AppConfig) : M unit :=
  modify_app (fun a =>
    mkAppState (step a) v (prompt a) (logs a) (project a)
               (deploymentUrl a) (repoUrl a) (isLoading a)).

Definition setPrompt (v : string) : M unit :=
  modify_app (fun a =>
    mkAppState (step a) (config a) v (logs a) (project a)
               (deploymentUrl a) (repoUrl a) (isLoading a)).

(** [setLogs(prev => [...prev, entry])] *)
Definition appendLog (entry : LogEntry) : M unit :=
  modify_app (fun a =>
    mkAppState (step a) (config a) (prompt a) (logs a ++ [entry])%list (project a)
               (deploymentUrl a) (repoUrl a) (isLoading a)).

Definition setProject (v : option GeneratedProject) : M unit :=
  modify_app (fun a =>
    mkAppState (step a) (config a) (prompt a) (logs a) v
               (deploymentUrl a) (repoUrl a) (isLoading a)).

Definition setDeploymentUrl (v : option string) : M unit :=
  modify_app (fun a =>
    mkAppState (step a) (config a) (prompt a) (logs a) (project a)
               v (repoUrl a) (isLoading a)).

Definition setRepoUrl (v : option string) : M unit :=
  modify_app (fun a =>
    mkAppState (step a) (config a) (prompt a) (logs a) (project a)
               (deploymentUrl a) v (isLoading a)).

Definition setIsLoading (v : bool) : M unit :=
  modify_app (fun a =>
    mkAppState (step a) (config a) (prompt a) (logs a) (project a)
               (deploymentUrl a) (repoUrl a) v).

(** [localStorage.setItem('autodeploy_config', JSON.stringify(v))]: the
    value is stored unless the browser refuses the write and throws. *)
Definition localStorage_setItem (v : AppConfig) : M unit :=
  refusal <- ask (fun w => Storage_setItem w v) ;;
  match refusal with
  | Some e => throw e
  | None => fun s => (mkSys (world s) (trace s) (app s) (Some v), Normal tt)
  end.

Definition localStorage_getItem : M (option AppConfig) :=
  fun s => (s, Normal (localStorage s)).

Definition addLog (message : string) (type : LogType) : M unit :=
  id <- ask Math_random ;;
  timestamp <- ask Date_now ;;
  appendLog (mkLogEntry id timestamp message type).

Definition generateProjectCode (prompt mode key : string) : M GeneratedProject :=
  outcome <- ask (fun w => geminiService w prompt mode key) ;;
  settle outcome.

Definition createVercelProject (token name repo : string) : M string :=
  outcome <- ask (fun w => vercelService w token name repo) ;;
  settle outcome.

(** The effect run once after the first render. *)
Definition mount : M unit :=
  saved <- localStorage_getItem ;;
  match saved with
  | Some c => setConfig c ;; setStep PROMPT
  | None => ret tt
  end.

Definition handleSaveConfig : M unit :=
  a <- getApp ;;
  let config := config a in
  setIsLoading true ;;
  try_finally
    (try_catch
       (username <- verifyGithubToken (githubToken config) ;;
        let newConfig :=
          mkAppConfig (githubToken config) (vercelToken config)
                      username (geminiKey config) in
        setConfig newConfig ;;
        localStorage_setItem newConfig ;;
        addLog ("Authenticated as GitHub user: " ++ username) success ;;
        setStep PROMPT)
       (fun e => addLog e error))
    (setIsLoading false).

Definition handleGenerate : M unit :=
  a <- getApp ;;
  let prompt := prompt a in
  let config := config a in
  if negb (truthy (trim prompt)) then ret tt
  else
    setStep GENERATING ;;
    setIsLoading true ;;
    addLog ("Generating project for: " ++ dquote ++ prompt ++ dquote ++ "...") info ;;
    try_finally
      (try_catch
         (generated <- generateProjectCode prompt "generate" (geminiKey config) ;;
          setProject (Some generated) ;;
          addLog ("Generated project: " ++ name generated) success ;;
          addLog ("Created " ++ showNat (length (files generated)) ++ " files.") info ;;
          setStep REVIEW)
         (fun e => addLog e error ;; setStep PROMPT))
      (setIsLoading false).

(** The [try] block of [handleDeploy]. *)
Definition deploySteps (config : AppConfig) (project : GeneratedProject)
  : M unit :=
  (* 1. Create Repo *)
  addLog "Creating GitHub repository..." info ;;
  repo <- createRepository (githubToken config) (name project)
                           (description project) ;;
  setRepoUrl (Repo.html_url repo) ;;
  addLog ("Repository created: " ++ showOpt (Repo.html_url repo)) success ;;
  (* 2. Push Files *)
  pushFilesToRepo (githubToken config) (githubUsername config)
                  (name project) (files project)
                  (fun msg => addLog msg info) ;;
  addLog "All files pushed to GitHub." success ;;
  (* 3. Deploy to Vercel (if token provided) *)
  (if truthy (vercelToken config) then
     addLog "Triggering Vercel deployment..." info ;;
     vercelProject <- createVercelProject (vercelToken config)
                        (name project)
                        (githubUsername config ++ "/" ++ name project) ;;
     addLog "Vercel project created/linked." success ;;
     setDeploymentUrl (Some ("https://" ++ name project ++ ".vercel.app")) ;;
     addLog "Deployment queued. Visit https://vercel.com/dashboard to see progress." warning
   else
     addLog "Skipping Vercel deployment (no token provided)." warning) ;;
  setStep SUCCESS.

Definition handleDeploy : M unit :=
  a <- getApp ;;
  let config := config a in
  match project a with
  | None => ret tt
  | Some project =>
    if negb (truthy (githubUsername config)) then ret tt
    else
      setStep DEPLOYING ;;
      setIsLoading true ;;
      try_finally
        (try_catch
           (deploySteps config project)
           (fun e => addLog e error ;; setStep REVIEW))
        (setIsLoading false)
  end.

(** The button of the header: [onClick={() => setStep(Step.CONFIG)}]. *)
Definition onClickSettings : M unit := setStep CONFIG.

(** The Reset button of the review panel:
    [onClick={() => setStep(Step.PROMPT)}]. *)
Definition onClickReset : M unit := setStep PROMPT.

(** The [onChange] handlers of the four inputs. *)
Definition onChangeGithubToken (v : string) : M unit :=
  a <- getApp ;;
  setConfig (mkAppConfig v (vercelToken (config a))
               (githubUsername (config a)) (geminiKey (config a))).

Definition onChangeVercelToken (v : string) : M unit :=
  a <- getApp ;;
  setConfig (mkAppConfig (githubToken (config a)) v
               (githubUsername (config a)) (geminiKey (config a))).

Definition onChangeGeminiKey (v : string) : M unit :=
  a <- getApp ;;
  setConfig (mkAppConfig (githubToken (config a)) (vercelToken (config a))
               (githubUsername (config a)) v).

Definition onChangePrompt (v : string) : M unit := setPrompt v.
End App.

(** *** What is rendered *)

(** The header, and its settings button, are outside every condition on
    [step]. *)
Definition settingsButtonRendered (a : AppState) : bool := true.

(** [(step === REVIEW || step === DEPLOYING || step === SUCCESS) && project] *)
Definition reviewPanelRendered (a : AppState) : bool :=
  (Step_eqb (step a) REVIEW || Step_eqb (step a) DEPLOYING
   || Step_eqb (step a) SUCCESS)
  && match project a with Some _ => true | None => false end.

Definition resetButtonRendered (a : AppState) : bool := reviewPanelRendered a.

(** *** The operations of the controller *)

Inductive Action : Type :=
| SaveConfig
| Generate
| Deploy
| ClickSettings
| ClickReset
| ChangeGithubToken (v : string)
| ChangeVercelToken (v : string)
| ChangeGeminiKey (v : string)
| ChangePrompt (v : string).

Definition perform `{Environment} (act : Action) : M unit :=
  match act with
  | SaveConfig => handleSaveConfig
  | Generate => handleGenerate
  | Deploy => handleDeploy
  | ClickSettings => onClickSettings
  | ClickReset => onClickReset
  | ChangeGithubToken v => onChangeGithubToken v
  | ChangeVercelToken v => onChangeVercelToken v
  | ChangeGeminiKey v => onChangeGeminiKey v
  | ChangePrompt v => onChangePrompt v
  end.

(** The states of the page: the first render followed by the mount effect,
    in any world and over any stored configuration, and then any sequence of
    operations. *)
Inductive reachable `{Environment} : Sys -> Prop :=
| reachable_mount (w : World) (stored : option AppConfig) :
    reachable (fst (mount (mkSys w [] initialApp stored)))
| reachable_perform (s : Sys) (act : Action) :
    reachable s -> reachable (fst (perform act s)).

(** The messages and severities of a run of log entries. *)
Definition narration (entries : list LogEntry) : list (string * LogType) :=
  map (fun e => (message e, type e)) entries.

(* ================================================================= *)
(** ** Vocabulary of the statements *)

Section Vocabulary.
Context `{Environment}.

(** The world after one log entry was stamped, with the identifier and
    the time it was given. *)
Definition stamp (w : World) : World * (string * Z) :=
  match Math_random w with
  | (w1, i) =>
      match Date_now w1 with
      | (w2, t) => (w2, (i, t))
      end
  end.

(** [a] with one more log entry. *)
Definition logged (a : AppState) (entry : LogEntry) : AppState :=
  mkAppState (step a) (config a) (prompt a) (logs a ++ [entry])%list
             (project a) (deploymentUrl a) (repoUrl a) (isLoading a).

(** [a] with the log entries [entries] appended. *)
Definition loggedAll (a : AppState) (entries : list LogEntry) : AppState :=
  mkAppState (step a) (config a) (prompt a) (logs a ++ entries)%list
             (project a) (deploymentUrl a) (repoUrl a) (isLoading a).

(** The entry [addLog message type] appends in the world [w]. *)
Definition stamped (w : World) (message : string) (type : LogType)
  : LogEntry :=
  mkLogEntry (fst (snd (stamp w))) (snd (snd (stamp w))) message type.

Definition withApp (s : Sys) (a : AppState) : Sys :=
  mkSys (world s) (trace s) a (localStorage s).

Definition withWorld (s : Sys) (w : World) : Sys :=
  mkSys w (trace s) (app s) (localStorage s).

(** The state right after [fetch request] was answered by the world [w]. *)
Definition fetched (s : Sys) (request : Request) (w : World) : Sys :=
  mkSys w (trace s ++ [EvFetch request])%list (app s) (localStorage s).

(** The [sha] that the existence lookup of [pushFilesToRepo] draws from
    the answer to its request. *)
Definition shaOf (answer : FetchResult) : option string :=
  match answer with
  | Resolved response =>
      if ok response then
        match parsed response with
        | inl checkData => Json.sha checkData
        | inr _ => None
        end
      else None
  | Rejected _ => None
  end.

(** What [pushFilesToRepo] hands to the progress callback for [file]. *)
Definition progressMessage (file : FileNode) : string :=
  "Pushing " ++ path file ++ "...".

(** The words that tell the warning of a deployment without hosting. *)
Definition skipNotice : string := "Skipping Vercel deployment".

(** The events one file of [pushFilesToRepo] gives rise to: the progress
    callback, the existence lookup, the upload. *)
Definition fileEvents (token username repoName : string) (file : FileNode)
    (events : list Event) : Prop :=
  exists sha,
    events =
      [EvProgress ("Pushing " ++ path file ++ "...");
       EvFetch (checkRequest token username repoName file);
       EvFetch (putRequest token username repoName file sha)].

(** The state right after the progress callback was entered with [msg]. *)
Definition progressed (s : Sys) (msg : string) : Sys :=
  mkSys (world s) (trace s ++ [EvProgress msg])%list (app s) (localStorage s).

(** An event that removes nothing upstream: a callback, or a request whose
    method is one of those the client uses to read, create and upload. *)
Definition additive (ev : Event) : Prop :=
  match ev with
  | EvFetch request =>
      method request = "GET" \/ method request = "POST"
      \/ method request = "PUT"
  | EvProgress _ => True
  end.

(** [s'] is [s] after the log entries [new] were appended and the events
    [events] took place, the page and the storage being otherwise as in
    [s]. *)
Definition advance (s s' : Sys) (new : list LogEntry) (events : list Event)
  : Prop :=
  app s' = loggedAll (app s) new
  /\ localStorage s' = localStorage s
  /\ trace s' = (trace s ++ events)%list.

(** [m], run in [s], ends in a state and a completion that satisfy [Q]. *)
Definition wp {A} (m : M A) (Q : Sys -> Completion A -> Prop) (s : Sys)
  : Prop :=
  Q (fst (m s)) (snd (m s)).

(** The state [handleDeploy] enters its [try] block in. *)
Definition deploying (s : Sys) : Sys :=
  withApp s
    (mkAppState DEPLOYING (config (app s)) (prompt (app s)) (logs (app s))
       (project (app s)) (deploymentUrl (app s)) (repoUrl (app s)) true).

(** The state after [addLog message type]. *)
Definition logging (s : Sys) (message : string) (type : LogType) : Sys :=
  fst (addLog message type s).

(** The state after the repository [repo] was created in [s]: its URL is
    stored and announced. *)
Definition announced (s : Sys) (repo : Repo.t) : Sys :=
  fst ((setRepoUrl (Repo.html_url repo) ;;
        addLog ("Repository created: " ++ showOpt (Repo.html_url repo)) success) s).

(** What a deployment without hosting tells the user, in order. *)
Definition deployNarration (repo : Repo.t) (files : list FileNode)
  : list (string * LogType) :=
  ([("Creating GitHub repository...", info);
    (("Repository created: " ++ showOpt (Repo.html_url repo))%string, success)]
   ++ map (fun file => (("Pushing " ++ path file ++ "...")%string, info)) files
   ++ [("All files pushed to GitHub.", success);
       ("Skipping Vercel deployment (no token provided).", warning)])%list.

(** The entries of [entries] whose message contains [phrase]. *)
Definition mentioning (phrase : string) (entries : list LogEntry)
  : list LogEntry :=
  filter (fun e => includes (message e) phrase) entries.

Definition userRequest (token : string) : Request :=
  mkRequest "GET" (GITHUB_API_BASE ++ "/user")
    [("Authorization", "token " ++ token);
     ("Accept", "application/vnd.github.v3+json")] [].

Definition createRequest (token name description : string) : Request :=
  mkRequest "POST" (GITHUB_API_BASE ++ "/user/repos")
    [("Authorization", "token " ++ token);
     ("Accept", "application/vnd.github.v3+json");
     ("Content-Type", "application/json")]
    [("name", JString name);
     ("description", JString description);
     ("private", JBool false);
     ("auto_init", JBool true)].

(** The upstream describes the repositories it creates: a successful
    answer to a creation request that carries a JSON body has an
    [html_url] in it. *)
Definition describesRepositories : Prop :=
  forall (w w' : World) (token name description : string)
         (response : Response) (data : Json.t),
    network w (createRequest token name description)
    = (w', Resolved response) ->
    ok response = true ->
    parsed response = inl data ->
    Json.html_url data <> None.
End Vocabulary.

(** The invariant of the workflow stage. *)
Definition successHasRepo (a : AppState) : Prop :=
  step a = SUCCESS -> repoUrl a <> None.

(** A stage at which the review panel is asked for comes with a project to
    show in it. *)
Definition reviewHasProject (a : AppState) : Prop :=
  step a = REVIEW \/ step a = DEPLOYING \/ step a = SUCCESS ->
  project a <> None.

(** An event that leaves the browser for the GitHub API only, under
    [token]: a callback, or a request whose URL starts with
    [GITHUB_API_BASE] and whose [Authorization] header is [token]'s. *)
Definition toGithubAs (token : string) (ev : Event) : Prop :=
  match ev with
  | EvFetch request =>
      String.prefix GITHUB_API_BASE (url request) = true
      /\ In ("Authorization", "token " ++ token) (headers request)
  | EvProgress _ => True
  end.

(** What a deployment with hosting tells the user, in order. *)
Definition hostedNarration (repo : Repo.t) (files : list FileNode)
  : list (string * LogType) :=
  ([("Creating GitHub repository...", info);
    (("Repository created: " ++ showOpt (Repo.html_url repo))%string, success)]
   ++ map (fun file => (("Pushing " ++ path file ++ "...")%string, info)) files
   ++ [("All files pushed to GitHub.", success);
       ("Triggering Vercel deployment...", info);
       ("Vercel project created/linked.", success);
       ("Deployment queued. Visit https://vercel.com/dashboard to see progress.",
        warning)])%list.

(** The operations that only edit the page. *)
Definition editsOnly (act : Action) : bool :=
  match act with
  | SaveConfig | Generate | Deploy => false
  | _ => true
  end.

(* ================================================================= *)
(** ** A scripted world

    An environment that answers the calls of [fetch] from a script, in
    order, and rejects them once the script is exhausted.  It serves to run
    the program on concrete inputs. *)

Module Scripted.
Record Script : Type := mkScript {
  answers : list FetchResult;
  generated : Completion GeneratedProject;
  hosted : Completion string;
  clock : Z
}.

Definition env : Environment := {|
  World := Script;
  network w _ :=
    match answers w with
    | answer :: rest =>
        (mkScript rest (generated w) (hosted w) (clock w), answer)
    | [] => (w, Rejected "Failed to fetch")
    end;
  geminiService w _ _ _ := (w, generated w);
  vercelService w _ _ _ := (w, hosted w);
  Math_random w := (w, "0.8p3");
  Date_now w :=
    (mkScript (answers w) (generated w) (hosted w) (clock w + 1)%Z, clock w);
  Storage_setItem w _ := (w, None);
  btoa s := s;
  unescape s := s;
  encodeURIComponent s := s
|}.

Definition payload (login name : string) (html_url message sha : option string)
  : Json.t + Error :=
  inl (Json.mk login name html_url message sha).

Definition unauthorized : FetchResult :=
  Resolved (mkResponse false (payload "" "" None (Some "Bad credentials") None)).

Definition user (login : string) : FetchResult :=
  Resolved (mkResponse true (payload login "" None None None)).

Definition created (name html_url : string) : FetchResult :=
  Resolved (mkResponse true (payload "" name (Some html_url) None None)).

(** The repository is created and the answer carries no [html_url]. *)
Definition createdBare (name : string) : FetchResult :=
  Resolved (mkResponse true (payload "" name None None None)).

Definition nameExists : FetchResult :=
  Resolved (mkResponse false
    (payload "" "" None (Some "Repository creation failed: name already exists on this account") None)).

Definition notFound : FetchResult :=
  Resolved (mkResponse false (payload "" "" None (Some "Not Found") None)).

Definition found (sha : string) : FetchResult :=
  Resolved (mkResponse true (payload "" "" None None (Some sha))).

Definition uploaded : FetchResult :=
  Resolved (mkResponse true (payload "" "" None None None)).

Definition rejectedUpload : FetchResult :=
  Resolved (mkResponse false (payload "" "" None (Some "Invalid request") None)).

Definition badGateway : FetchResult :=
  Resolved (mkResponse false (inr "Unexpected token < in JSON at position 0")).

Definition helloWorld : GeneratedProject :=
  mkProject "hello-world" "A hello world page"
    [mkFileNode "index.html" "<html>...</html>"].

Definition threeFiles : list FileNode :=
  [mkFileNode "index.html" "<html></html>";
   mkFileNode "style.css" "body {}";
   mkFileNode "app.js" "main()"].

Definition start (script : list FetchResult)
    (generation : Completion GeneratedProject) (a : AppState) : @Sys env :=
  @mkSys env (mkScript script generation (Throw "no hosting") 0%Z) [] a None.

Definition octocat : AppConfig := mkAppConfig "ghp_1" "" "octocat" "".

(** A session in the review stage, with a project and nothing deployed. *)
Definition reviewing : AppState :=
  mkAppState REVIEW octocat "a hello world page" [] (Some helloWorld)
             None None false.

(** A session that deployed [helloWorld] to GitHub and Vercel before the
    Vercel token was removed from the configuration. *)
Definition redeploying : AppState :=
  mkAppState REVIEW octocat "a hello world page" [] (Some helloWorld)
             (Some "https://hello-world.vercel.app")
             (Some "https://github.com/octocat/hello-world") false.

(** A session back at the prompt with the project of an earlier
    generation still in the state. *)
Definition prompting : AppState :=
  mkAppState PROMPT octocat "a blog" [] (Some helloWorld) None None false.

(** A prompt of a space, a tab and a line feed. *)
Definition blank : string :=
  String " " (String "009" (String "010" EmptyString)).

Definition idle : AppState :=
  mkAppState PROMPT octocat blank [] None None None false.

(** A session whose deployment to GitHub and Vercel has succeeded. *)
Definition finished : AppState :=
  mkAppState SUCCESS (mkAppConfig "ghp_1" "vc_1" "octocat" "")
             "a hello world page" [] (Some helloWorld)
             (Some "https://hello-world.vercel.app")
             (Some "https://github.com/octocat/hello-world") false.

Definition notes : GeneratedProject :=
  mkProject "notes" "Release notes"
    [mkFileNode "Skipping Vercel deployment.md" "# Why"].

(** [redeploying], with the project [notes] generated in between. *)
Definition redeployingNotes : AppState :=
  mkAppState REVIEW octocat "release notes" [] (Some notes)
             (Some "https://hello-world.vercel.app")
             (Some "https://github.com/octocat/hello-world") false.

(** The network drops the request. *)
Definition dropped : FetchResult := Rejected "Failed to fetch".

(** A session in the review stage with a Vercel token configured. *)
Definition reviewingHosted : AppState :=
  mkAppState REVIEW (mkAppConfig "ghp_1" "vc_1" "octocat" "")
             "a hello world page" [] (Some helloWorld) None None false.

Definition startHosted (script : list FetchResult)
    (hosting : Completion string) (a : AppState) : @Sys env :=
  @mkSys env (mkScript script (Throw "offline") hosting 0%Z) [] a None.

(** The page as first rendered, once the tokens are typed in. *)
Definition configuring : AppState :=
  mkAppState CONFIG (mkAppConfig "ghp_1" "vc_1" "" "AIza") "" [] None None
             None false.

(** A progress callback that gives up on style sheets. *)
Definition fussy (msg : string) : @M env unit :=
  if includes msg ".css" then @throw env unit "no style sheets"
  else @ret env unit tt.

(** A whole session: the page is opened over a stored configuration, a
    prompt is typed, a project is generated and deployed. *)
Definition opened : @Sys env :=
  fst (@mount env
         (@mkSys env
            (mkScript [created "hello-world" "https://github.com/octocat/hello-world";
                       notFound; uploaded]
                      (Normal helloWorld) (Throw "no hosting") 0%Z)
            [] initialApp (Some octocat))).

Definition typed : @Sys env :=
  fst (@perform env (ChangePrompt "a hello world page") opened).

Definition generatedSession : @Sys env := fst (@perform env Generate typed).

Definition deployed : @Sys env := fst (@perform env Deploy generatedSession).

(** The same session over an upstream that creates the repository and
    answers without its [html_url]. *)
Definition openedBare : @Sys env :=
  fst (@mount env
         (@mkSys env
            (mkScript [createdBare "hello-world"; notFound; uploaded]
                      (Normal helloWorld) (Throw "no hosting") 0%Z)
            [] initialApp (Some octocat))).

Definition deployedBare : @Sys env :=
  fst (@perform env Deploy
         (fst (@perform env Generate
                 (fst (@perform env (ChangePrompt "a hello world page")
                         openedBare))))).
End Scripted.

(** *** A browser whose storage is full

    The scripted world, in a browser that refuses every write to the local
    storage. *)

Module Full.
Definition env : Environment := {|
  World := Scripted.Script;
  network := @network Scripted.env;
  geminiService := @geminiService Scripted.env;
  vercelService := @vercelService Scripted.env;
  Math_random := @Math_random Scripted.env;
  Date_now := @Date_now Scripted.env;
  Storage_setItem w _ := (w, Some "The quota has been exceeded.");
  btoa s := s;
  unescape s := s;
  encodeURIComponent s := s
|}.

Definition start (script : list FetchResult) (a : AppState) : @Sys env :=
  @mkSys env
    (Scripted.mkScript script (Throw "offline") (Throw "no hosting") 0%Z)
    [] a None.
End Full.

(** *** An upstream of one repository

    An environment that answers every request with the description of the
    repository [hello-world], and generates the project of that name. *)

Module Hub.
Definition repository : Json.t :=
  Json.mk "octocat" "hello-world"
          (Some "https://github.com/octocat/hello-world") None None.

Definition env : Environment := {|
  World := Z;
  network w _ := (w, Resolved (mkResponse true (inl repository)));
  geminiService w _ _ _ := (w, Normal Scripted.helloWorld);
  vercelService w _ _ _ := (w, Throw "no hosting");
  Math_random w := (w, "0.8p3");
  Date_now w := ((w + 1)%Z, w);
  Storage_setItem w _ := (w, None);
  btoa s := s;
  unescape s := s;
  encodeURIComponent s := s
|}.

Definition opened : @Sys env :=
  fst (@mount env (@mkSys env 0%Z [] initialApp (Some Scripted.octocat))).

Definition deployed : @Sys env :=
  fst (@perform env Deploy
         (fst (@perform env Generate
                 (fst (@perform env (ChangePrompt "a hello world page")
                         opened))))).
End Hub.


(* ================================================================= *)
(** ** Strings *)

Lemma trimStart_allWhiteSpace (s : string) :
  allWhiteSpace s = true -> trimStart s = EmptyString.
Proof.
  induction s as [|c rest IH]; cbn; [reflexivity|].
  intros Hall. apply andb_prop in Hall as [Hc Hrest].
  rewrite Hc. now apply IH.
Qed.

Lemma trimStart_head (s : string) :
  trimStart s = EmptyString
  \/ exists c rest, trimStart s = String c rest /\ isWhiteSpace c = false.
Proof.
  induction s as [|c rest IH]; cbn; [now left|].
  destruct (isWhiteSpace c) eqn:Hc; [exact IH|].
  right. now exists c, rest.
Qed.

Lemma trimStart_empty (s : string) :
  trimStart s = EmptyString -> allWhiteSpace s = true.
Proof.
  induction s as [|c rest IH]; cbn; [reflexivity|].
  destruct (isWhiteSpace c); [exact IH | discriminate].
Qed.

Lemma trimEnd_head (c : ascii) (rest : string) :
  isWhiteSpace c = false -> trimEnd (String c rest) <> EmptyString.
Proof.
  intros Hc. cbn. destruct (trimEnd rest); [rewrite Hc|]; discriminate.
Qed.

(** [s.trim()] is empty exactly when [s] is made of white space. *)
Lemma trim_empty_iff (s : string) :
  trim s = EmptyString <-> allWhiteSpace s = true.
Proof.
  unfold trim. split.
  - intros Htrim. apply trimStart_empty.
    destruct (trimStart_head s) as [Hs | (c & rest & Hs & Hc)]; [exact Hs|].
    rewrite Hs in Htrim. now apply trimEnd_head in Htrim.
  - intros Hall. now rewrite trimStart_allWhiteSpace.
Qed.

Lemma includes_cons (c : ascii) (rest needle : string) :
  includes (String c rest) needle
  = String.prefix needle (String c rest) || includes rest needle.
Proof. cbn [includes]. now destruct (String.prefix needle (String c rest)). Qed.

(** A needle without the character [stop] that is a prefix of [s] followed
    by [stop] is a prefix of [s] already. *)
Lemma prefix_before_stop (stop : ascii) (needle : string) :
  avoids stop needle = true ->
  forall s tail,
    String.prefix needle (s ++ String stop tail) = true ->
    String.prefix needle s = true.
Proof.
  induction needle as [|a needle IH]; [now intros _ [|b s] tail|].
  intros Havoid s tail. cbn in Havoid.
  apply andb_prop in Havoid as [Ha Hrest].
  destruct s as [|b s]; cbn.
  - destruct (ascii_dec a stop) as [->|]; [|discriminate].
    now rewrite Ascii.eqb_refl in Ha.
  - destruct (ascii_dec a b); [|discriminate].
    now apply IH.
Qed.

Lemma includes_before_stop (stop : ascii) (needle tail : string) :
  avoids stop needle = true ->
  includes (String stop tail) needle = false ->
  forall s, includes s needle = false ->
            includes (s ++ String stop tail) needle = false.
Proof.
  intros Havoid Htail.
  induction s as [|c s IH]; [intros _; exact Htail|].
  rewrite includes_cons. intros Hs.
  apply orb_false_elim in Hs as [Hpre Hs].
  change (String c s ++ String stop tail)%string
    with (String c (s ++ String stop tail)).
  rewrite includes_cons, (IH Hs), orb_false_r.
  destruct (String.prefix needle (String c (s ++ String stop tail))) eqn:Hp;
    [|reflexivity].
  rewrite <- Hpre. symmetry.
  now apply (prefix_before_stop stop needle Havoid (String c s) tail).
Qed.

(* ================================================================= *)
(** ** Running the monad *)

Section Runs.
Context `{Environment}.

Lemma addLog_run (message : string) (type : LogType) (s : Sys) :
  addLog message type s
  = (mkSys (fst (stamp (world s))) (trace s)
           (logged (app s) (stamped (world s) message type))
           (localStorage s),
     Normal tt).
Proof.
  unfold addLog, stamped, stamp, bind, ask, appendLog, modify_app, logged.
  destruct (Math_random (world s)) as [w1 i]. cbn.
  destruct (Date_now w1) as [w2 t]. reflexivity.
Qed.

Lemma fetch_run (request : Request) (s : Sys) :
  fetch request s
  = match network (world s) request with
    | (w, Resolved response) => (fetched s request w, Normal response)
    | (w, Rejected e) => (fetched s request w, Throw e)
    end.
Proof.
  unfold fetch, bind, record, ask, fetched. cbn.
  destruct (network (world s) request) as [w [response|e]]; reflexivity.
Qed.

(** [verifyGithubToken] issues one request, and touches neither the page
    nor the storage. *)
Lemma verifyGithubToken_run (token : string) (s : Sys) :
  verifyGithubToken token s
  = match network (world s) (userRequest token) with
    | (w, Resolved response) =>
        (fetched s (userRequest token) w,
         if ok response then
           match parsed response with
           | inl data => Normal (Json.login data)
           | inr e => Throw e
           end
         else Throw "Invalid GitHub Token")
    | (w, Rejected e) => (fetched s (userRequest token) w, Throw e)
    end.
Proof.
  unfold verifyGithubToken, bind. fold (userRequest token).
  rewrite fetch_run.
  destruct (network (world s) (userRequest token)) as [w [response|e]];
    [|reflexivity].
  destruct (ok response); [|reflexivity].
  unfold json. now destruct (parsed response).
Qed.

Lemma verifyGithubToken_frame (token : string) (s : Sys) :
  let s1 := fst (verifyGithubToken token s) in
  app s1 = app s /\ localStorage s1 = localStorage s
  /\ trace s1 = (trace s ++ [EvFetch (userRequest token)])%list.
Proof.
  rewrite verifyGithubToken_run.
  now destruct (network (world s) (userRequest token)) as [w [response|e]].
Qed.
End Runs.

(* ================================================================= *)
(** ** The prompt and the configuration *)

Section Controller.
Context `{Environment}.

(** C8. When the prompt is empty or made of white space only,
    [handleGenerate] changes nothing: the stage, the project, the log and
    every other part of the state are as before, and nothing is asked of
    the outside world. *)
Theorem handleGenerate_blank_prompt (s : Sys) :
  allWhiteSpace (prompt (app s)) = true ->
  handleGenerate s = (s, Normal tt).
Proof.
  intros Hblank. apply trim_empty_iff in Hblank.
  unfold handleGenerate, bind, getApp. now rewrite Hblank.
Qed.

(** C3, as the code has it.  When the prompt is not blank and the generation
    client fails with [e], [handleGenerate] ends in stage [PROMPT] with two
    more log entries, the announcement and the error, and with the project
    that was stored before the call: a failed attempt stores no project and
    removes none. *)
Theorem handleGenerate_failure (s : Sys) (w : World) (e : Error) :
  truthy (trim (prompt (app s))) = true ->
  geminiService (fst (stamp (world s))) (prompt (app s)) "generate"
                (geminiKey (config (app s))) = (w, Throw e) ->
  exists announcement failure,
    handleGenerate s
    = (mkSys (fst (stamp w)) (trace s)
         (mkAppState PROMPT (config (app s)) (prompt (app s))
            (logs (app s) ++ [announcement; failure])%list
            (project (app s)) (deploymentUrl (app s)) (repoUrl (app s)) false)
         (localStorage s),
       Normal tt)
    /\ type announcement = info
    /\ message failure = e /\ type failure = error.
Proof.
  intros Hprompt Hfail.
  exists (stamped (world s)
            ("Generating project for: " ++ dquote ++ prompt (app s)
               ++ dquote ++ "...") info),
         (stamped w e error).
  repeat split.
  unfold handleGenerate, bind at 1, getApp. rewrite Hprompt. cbn [negb].
  unfold try_finally, try_catch, generateProjectCode, bind, setStep,
    setIsLoading, modify_app.
  cbn. rewrite addLog_run. cbn. unfold ask. cbn. rewrite Hfail. cbn.
  rewrite addLog_run. cbn. unfold logged. cbn.
  now rewrite <- app_assoc.
Qed.

(** C4, as the code has it.  The Reset button sets the stage to [PROMPT]
    and leaves the project, both URLs, the log and the configuration as
    they were; the settings button is rendered at every stage and sets the
    stage to [CONFIG], again changing nothing else. *)
Theorem onClickReset_only_sets_step (s : Sys) :
  onClickReset s
  = (withApp s
       (mkAppState PROMPT (config (app s)) (prompt (app s)) (logs (app s))
          (project (app s)) (deploymentUrl (app s)) (repoUrl (app s))
          (isLoading (app s))),
     Normal tt)
  /\ settingsButtonRendered (app s) = true
  /\ onClickSettings s
     = (withApp s
          (mkAppState CONFIG (config (app s)) (prompt (app s)) (logs (app s))
             (project (app s)) (deploymentUrl (app s)) (repoUrl (app s))
             (isLoading (app s))),
        Normal tt).
Proof. repeat split. Qed.

(** C7, as the code has it.  [handleSaveConfig] verifies the GitHub token
    of the configuration with one request.  When the verification resolves
    to [username], the configuration with that user name is put in the state
    and written to the local storage; when the write is accepted, a success
    entry is appended and the stage is [PROMPT]; when the browser refuses
    the write with [e], an error entry carrying [e] is appended and the
    stage and the storage are as before, the merged configuration staying
    in the state.  When the verification throws [e], an error entry
    carrying [e] is appended and the stage, the configuration and the
    storage are as before. *)
Theorem handleSaveConfig_outcomes (s : Sys) :
  let cfg := config (app s) in
  let verified := verifyGithubToken (githubToken cfg) s in
  trace (fst verified)
  = (trace s ++ [EvFetch (userRequest (githubToken cfg))])%list
  /\ exists entry,
       match snd verified with
       | Normal username =>
           let newConfig :=
             mkAppConfig (githubToken cfg) (vercelToken cfg) username
                         (geminiKey cfg) in
           match Storage_setItem (world (fst verified)) newConfig with
           | (w, None) =>
               handleSaveConfig s
               = (mkSys (fst (stamp w)) (trace (fst verified))
                    (mkAppState PROMPT newConfig (prompt (app s))
                       (logs (app s) ++ [entry])%list (project (app s))
                       (deploymentUrl (app s)) (repoUrl (app s)) false)
                    (Some newConfig),
                  Normal tt)
               /\ message entry
                  = ("Authenticated as GitHub user: " ++ username)%string
               /\ type entry = success
           | (w, Some e) =>
               handleSaveConfig s
               = (mkSys (fst (stamp w)) (trace (fst verified))
                    (mkAppState (step (app s)) newConfig (prompt (app s))
                       (logs (app s) ++ [entry])%list (project (app s))
                       (deploymentUrl (app s)) (repoUrl (app s)) false)
                    (localStorage s),
                  Normal tt)
               /\ message entry = e /\ type entry = error
           end
       | Throw e =>
           handleSaveConfig s
           = (mkSys (fst (stamp (world (fst verified)))) (trace (fst verified))
                (mkAppState (step (app s)) cfg (prompt (app s))
                   (logs (app s) ++ [entry])%list (project (app s))
                   (deploymentUrl (app s)) (repoUrl (app s)) false)
                (localStorage s),
              Normal tt)
           /\ message entry = e /\ type entry = error
       end.
Proof.
  intros cfg verified. split; [apply verifyGithubToken_frame|].
  assert (Hrun :
    verifyGithubToken (githubToken cfg)
      (mkSys (world s) (trace s)
         (mkAppState (step (app s)) cfg (prompt (app s))
            (logs (app s)) (project (app s)) (deploymentUrl (app s))
            (repoUrl (app s)) true) (localStorage s))
    = (mkSys (world (fst verified)) (trace (fst verified))
         (mkAppState (step (app s)) cfg (prompt (app s))
            (logs (app s)) (project (app s)) (deploymentUrl (app s))
            (repoUrl (app s)) true) (localStorage s),
       snd verified)).
  { subst verified. rewrite !verifyGithubToken_run. cbn.
    destruct (network (world s) (userRequest (githubToken cfg)))
      as [w [response|e]]; reflexivity. }
  revert Hrun.
  destruct (snd verified) as [username|e]; intros Hrun.
  - cbn zeta.
    destruct (Storage_setItem (world (fst verified))
                (mkAppConfig (githubToken cfg) (vercelToken cfg) username
                   (geminiKey cfg))) as [w [e|]] eqn:Hwrite;
      eexists; split.
    + unfold handleSaveConfig, bind at 1, getApp.
      unfold bind at 1, setIsLoading at 1, modify_app at 1.
      unfold try_finally, try_catch, bind at 1.
      fold cfg. rewrite Hrun. cbn.
      unfold bind, setConfig, setStep, setIsLoading, localStorage_setItem,
        ask, bind, throw, modify_app. cbn. rewrite Hwrite. cbn.
      rewrite addLog_run. cbn. reflexivity.
    + split; reflexivity.
    + unfold handleSaveConfig, bind at 1, getApp.
      unfold bind at 1, setIsLoading at 1, modify_app at 1.
      unfold try_finally, try_catch, bind at 1.
      fold cfg. rewrite Hrun. cbn.
      unfold bind, setConfig, setStep, setIsLoading, localStorage_setItem,
        ask, bind, modify_app. cbn. rewrite Hwrite. cbn.
      rewrite addLog_run. cbn. reflexivity.
    + split; reflexivity.
  - eexists. split.
    + unfold handleSaveConfig, bind at 1, getApp.
      unfold bind at 1, setIsLoading at 1, modify_app at 1.
      unfold try_finally, try_catch, bind at 1.
      fold cfg. rewrite Hrun. cbn.
      rewrite addLog_run. unfold setIsLoading, modify_app. cbn. reflexivity.
    + split; reflexivity.
Qed.
End Controller.

(* ================================================================= *)
(** ** The GitHub client *)

Section Github.
Context `{Environment}.

Lemma includes_truthy (m needle : string) :
  needle <> EmptyString -> includes m needle = true -> truthy m = true.
Proof.
  intros Hneedle. destruct m; [|reflexivity].
  destruct needle; [congruence | discriminate].
Qed.

Lemma createRepository_run (token name description : string) (s : Sys) :
  let request := createRequest token name description in
  createRepository token name description s
  = match network (world s) request with
    | (w, Rejected e) => (fetched s request w, Throw e)
    | (w, Resolved response) =>
        let s1 := fetched s request w in
        match parsed response with
        | inr e => (s1, Throw e)
        | inl data =>
            if ok response then
              (s1, Normal (Repo.mk (Json.name data) (Json.html_url data)))
            else if match Json.message data with
                    | Some m => truthy m && includes m "name already exists"
                    | None => false
                    end
            then
              match verifyGithubToken token s1 with
              | (s2, Normal login) =>
                  (s2, Normal (Repo.mk name
                                 (Some ("https://github.com/" ++ login
                                          ++ "/" ++ name))))
              | (s2, Throw e) => (s2, Throw e)
              end
            else
              (s1, Throw ("GitHub Create Repo Error: "
                            ++ showOpt (Json.message data)))
        end
    end.
Proof.
  intros request. unfold createRepository, bind at 1.
  fold (createRequest token name description). fold request.
  rewrite fetch_run.
  destruct (network (world s) request) as [w [response|e]]; [|reflexivity].
  cbn zeta. unfold json.
  destruct (ok response), (parsed response) as [data|e]; cbn; try reflexivity.
  unfold bind at 1, ret.
  destruct (Json.message data) as [m|]; [|reflexivity].
  destruct (truthy m && includes m "name already exists"); [|reflexivity].
  unfold bind.
  now destruct (verifyGithubToken token (fetched s request w)) as [s2 [login|e]].
Qed.

Lemma createRepository_url (token name description : string)
    (s s' : Sys) (repo : Repo.t) :
  describesRepositories ->
  createRepository token name description s = (s', Normal repo) ->
  Repo.html_url repo <> None.
Proof.
  intros Hupstream. rewrite createRepository_run. cbn zeta.
  destruct (network (world s) (createRequest token name description))
    as [w [response|e]] eqn:Hnet; [|discriminate].
  destruct (parsed response) as [data|e] eqn:Hbody; [|discriminate].
  destruct (ok response) eqn:Hok.
  - intros [= _ <-]. cbn. exact (Hupstream _ _ _ _ _ _ _ Hnet Hok Hbody).
  - destruct (match Json.message data with
              | Some m => truthy m && includes m "name already exists"
              | None => false
              end); [|discriminate].
    destruct (verifyGithubToken token _) as [s2 [login|e]]; [|discriminate].
    intros [= _ <-]. discriminate.
Qed.

(** C2, as the code has it.  When the answer to the creation request is
    unsuccessful, its body is read.  When the body is not JSON, the error
    of the parser is thrown.  When the body is a JSON object whose message
    is a string or is missing: if the message contains
    ["name already exists"], the token is verified once more and the result
    is the requested name with the URL built from the verified login, or
    the error of that verification when it fails; otherwise the error is
    ["GitHub Create Repo Error: "] followed by the upstream's message,
    [undefined] standing for a missing one. *)
Theorem createRepository_unsuccessful
    (token name description : string) (s : Sys) (w : World)
    (response : Response) :
  network (world s) (createRequest token name description)
  = (w, Resolved response) ->
  ok response = false ->
  let s1 := fetched s (createRequest token name description) w in
  match parsed response with
  | inr e => createRepository token name description s = (s1, Throw e)
  | inl err =>
      (forall m, Json.message err = Some m ->
                 includes m "name already exists" = true ->
         match verifyGithubToken token s1 with
         | (s2, Normal login) =>
             createRepository token name description s
             = (s2, Normal (Repo.mk name
                              (Some ("https://github.com/" ++ login
                                       ++ "/" ++ name))))
         | (s2, Throw e) =>
             createRepository token name description s = (s2, Throw e)
         end)
      /\ ((forall m, Json.message err = Some m ->
                     includes m "name already exists" = false) ->
          createRepository token name description s
          = (s1, Throw ("GitHub Create Repo Error: "
                          ++ showOpt (Json.message err))))
  end.
Proof.
  intros Hnet Hok s1. rewrite createRepository_run. cbn zeta.
  rewrite Hnet, Hok. fold s1.
  destruct (parsed response) as [err|e]; [|reflexivity]. split.
  - intros m Hm Hin. rewrite Hm, Hin.
    rewrite (includes_truthy m "name already exists") by (discriminate || easy).
    cbn. now destruct (verifyGithubToken token s1) as [s2 [login|e]].
  - intros Hother. destruct (Json.message err) as [m|]; [|reflexivity].
    now rewrite (Hother m eq_refl), andb_false_r.
Qed.

(** C10. On the path of the name collision the token is verified again:
    the request for the user follows the creation request.  When the answer
    to it is unsuccessful, [createRepository] throws
    ["Invalid GitHub Token"] and returns no repository. *)
Theorem createRepository_collision_invalid_token
    (token name description : string) (s : Sys) (w w' : World)
    (response response' : Response) (err : Json.t) (m : string) :
  network (world s) (createRequest token name description)
  = (w, Resolved response) ->
  ok response = false ->
  parsed response = inl err ->
  Json.message err = Some m ->
  includes m "name already exists" = true ->
  network w (userRequest token) = (w', Resolved response') ->
  ok response' = false ->
  createRepository token name description s
  = (mkSys w'
       (trace s ++ [EvFetch (createRequest token name description);
                    EvFetch (userRequest token)])%list
       (app s) (localStorage s),
     Throw "Invalid GitHub Token").
Proof.
  intros Hnet Hok Hbody Hm Hin Hnet' Hok'.
  rewrite createRepository_run. cbn zeta.
  rewrite Hnet, Hbody, Hok, Hm, Hin.
  rewrite (includes_truthy m "name already exists") by (discriminate || easy).
  cbn. rewrite verifyGithubToken_run. cbn. rewrite Hnet', Hok'.
  unfold fetched. cbn. now rewrite <- app_assoc.
Qed.
End Github.

(* ================================================================= *)
(** ** Pushing the files *)

Section Push.
Context `{Environment}.
Variables token username repoName : string.
Variable onProgress : string -> M unit.

Lemma for_of_app {A} (xs ys : list A) (body : A -> M unit) (s : Sys) :
  for_of (xs ++ ys) body s
  = match for_of xs body s with
    | (s1, Normal _) => for_of ys body s1
    | (s1, Throw e) => (s1, Throw e)
    end.
Proof.
  revert s. induction xs as [|x xs IH]; intros s; [reflexivity|].
  rewrite <- app_comm_cons. cbn [for_of]. unfold bind.
  destruct (body x s) as [s1 [[]|e]]; [apply IH | reflexivity].
Qed.

(** One turn of the loop, step by step: the callback, then the lookup,
    whose failures only leave [sha] undefined, then the upload. *)
Lemma pushFile_run (file : FileNode) (s : Sys) :
  pushFile token username repoName onProgress file s
  = match onProgress (progressMessage file) (progressed s (progressMessage file)) with
    | (called, Throw e) => (called, Throw e)
    | (called, Normal _) =>
        let check := checkRequest token username repoName file in
        match network (world called) check with
        | (w1, lookup) =>
            let put := putRequest token username repoName file (shaOf lookup) in
            match network w1 put with
            | (w2, Resolved res) =>
                (fetched (fetched called check w1) put w2,
                 if ok res then Normal tt
                 else Throw ("Failed to upload " ++ path file))
            | (w2, Rejected e) =>
                (fetched (fetched called check w1) put w2, Throw e)
            end
        end
    end.
Proof.
  unfold pushFile, invoke, try_catch, fetch, json, bind, record, ask, ret,
    throw, progressed, fetched.
  fold (progressMessage file). cbn.
  destruct (onProgress _ _) as [called [[]|e]]; [|reflexivity].
  destruct (network (world called) _) as [w1 [checkRes|e]]; cbn.
  - destruct (ok checkRes), (parsed checkRes) as [checkData|e]; cbn;
      destruct (network w1 _) as [w2 [res|e']]; cbn; try reflexivity;
      now destruct (ok res).
  - destruct (network w1 _) as [w2 [res|e']]; cbn; try reflexivity.
    now destruct (ok res).
Qed.

Hypothesis onProgress_silent :
  forall msg s, trace (fst (onProgress msg s)) = trace s.

Lemma pushFile_events (file : FileNode) (s s' : Sys) :
  pushFile token username repoName onProgress file s = (s', Normal tt) ->
  exists events,
    fileEvents token username repoName file events
    /\ trace s' = (trace s ++ events)%list.
Proof.
  rewrite pushFile_run.
  pose proof (onProgress_silent (progressMessage file)
                (progressed s (progressMessage file))) as Hsilent.
  destruct (onProgress (progressMessage file) (progressed s (progressMessage file)))
    as [called [[]|e]]; [|discriminate].
  cbn in Hsilent. cbn zeta.
  destruct (network (world called) (checkRequest token username repoName file))
    as [w1 lookup].
  destruct (network w1 (putRequest token username repoName file (shaOf lookup)))
    as [w2 [res|e]]; [|discriminate].
  destruct (ok res); [|discriminate].
  intros [= <-]. eexists. split; [now exists (shaOf lookup)|].
  cbn. rewrite Hsilent. now rewrite <- !app_assoc.
Qed.

Lemma pushFilesToRepo_events (files : list FileNode) (s s' : Sys) :
  pushFilesToRepo token username repoName files onProgress s = (s', Normal tt) ->
  exists events,
    Forall2 (fileEvents token username repoName) files events
    /\ trace s' = (trace s ++ concat events)%list.
Proof.
  unfold pushFilesToRepo. revert s.
  induction files as [|file files IH]; intros s; cbn [for_of].
  - intros [= <-]. exists []. split; [constructor | now rewrite app_nil_r].
  - unfold bind at 1.
    destruct (pushFile token username repoName onProgress file s)
      as [s1 [[]|e]] eqn:Hfile; [|discriminate].
    intros Hrest.
    apply pushFile_events in Hfile as (first & Hfirst & Htrace1).
    apply IH in Hrest as (events & Hevents & Htrace).
    exists (first :: events). split; [now constructor|].
    cbn [concat]. now rewrite Htrace, Htrace1, app_assoc.
Qed.

(** C1, as the code has it.  The files are taken in the order given, and
    each gives rise to the progress callback, then the existence lookup,
    then the upload, once each.  When the files of [pre] are pushed and the
    upload of the next file is answered unsuccessfully, [pushFilesToRepo]
    throws ["Failed to upload "] followed by the path of that file; the
    events are those of [pre] and of that file, so nothing is done for the
    files of [post] and nothing is sent beyond lookups and uploads, and the
    state is the one the last upload left. *)
Theorem pushFilesToRepo_aborts_at_failed_upload
    (pre post : list FileNode) (file : FileNode)
    (s pushed called : Sys) (w1 w2 : World)
    (lookup : FetchResult) (res : Response) :
  pushFilesToRepo token username repoName pre onProgress s
  = (pushed, Normal tt) ->
  invoke onProgress ("Pushing " ++ path file ++ "...") pushed
  = (called, Normal tt) ->
  network (world called) (checkRequest token username repoName file)
  = (w1, lookup) ->
  network w1 (putRequest token username repoName file (shaOf lookup))
  = (w2, Resolved res) ->
  ok res = false ->
  exists final events,
    pushFilesToRepo token username repoName (pre ++ file :: post) onProgress s
    = (final, Throw ("Failed to upload " ++ path file))
    /\ Forall2 (fileEvents token username repoName) (pre ++ [file]) events
    /\ trace final = (trace s ++ concat events)%list
    /\ app final = app called
    /\ localStorage final = localStorage called
    /\ world final = w2.
Proof.
  intros Hpre Hcall Hlookup Hput Hok.
  pose proof (pushFilesToRepo_events pre s pushed Hpre)
    as (events & Hevents & Htrace).
  pose proof (onProgress_silent (progressMessage file)
                (progressed pushed (progressMessage file))) as Hsilent.
  unfold invoke, bind, record in Hcall.
  fold (progressMessage file) in Hcall.
  fold (progressed pushed (progressMessage file)) in Hcall.
  assert (Hfile :
    pushFile token username repoName onProgress file pushed
    = (fetched (fetched called (checkRequest token username repoName file) w1)
         (putRequest token username repoName file (shaOf lookup)) w2,
       Throw ("Failed to upload " ++ path file))).
  { rewrite pushFile_run, Hcall. cbn zeta. now rewrite Hlookup, Hput, Hok. }
  rewrite Hcall in Hsilent. cbn in Hsilent.
  exists (fetched (fetched called (checkRequest token username repoName file) w1)
            (putRequest token username repoName file (shaOf lookup)) w2).
  exists (events ++ [[EvProgress (progressMessage file);
                               EvFetch (checkRequest token username repoName file);
                               EvFetch (putRequest token username repoName file
                                          (shaOf lookup))]])%list.
  split; [|split; [|split; [|now repeat split]]].
  - unfold pushFilesToRepo in *. rewrite for_of_app, Hpre.
    cbn [for_of]. unfold bind at 1. now rewrite Hfile.
  - apply Forall2_app; [exact Hevents|].
    constructor; [now exists (shaOf lookup) | constructor].
  - cbn. rewrite Hsilent, concat_app. cbn. rewrite Htrace.
    now rewrite ?app_nil_r, <- !app_assoc.
Qed.
End Push.

(* ================================================================= *)
(** ** What a run leaves behind *)

Open Scope list_scope.

Section Advance.
Context `{Environment}.

Lemma loggedAll_nil (a : AppState) : loggedAll a [] = a.
Proof. destruct a. unfold loggedAll. cbn. now rewrite app_nil_r. Qed.

Lemma loggedAll_app (a : AppState) (xs ys : list LogEntry) :
  loggedAll (loggedAll a xs) ys = loggedAll a (xs ++ ys).
Proof. unfold loggedAll. cbn. now rewrite app_assoc. Qed.

Lemma advance_refl (s : Sys) : advance s s [] [].
Proof.
  unfold advance. now rewrite loggedAll_nil, app_nil_r.
Qed.

Lemma advance_trans (s s1 s2 : Sys) (n1 n2 : list LogEntry)
    (e1 e2 : list Event) :
  advance s s1 n1 e1 -> advance s1 s2 n2 e2 ->
  advance s s2 (n1 ++ n2) (e1 ++ e2).
Proof.
  intros (Ha1 & Hl1 & Ht1) (Ha2 & Hl2 & Ht2). unfold advance.
  rewrite Ha2, Ha1, Hl2, Hl1, Ht2, Ht1.
  now rewrite loggedAll_app, app_assoc.
Qed.

Lemma addLog_advance (message : string) (type : LogType) (s : Sys) :
  advance s (logging s message type) [stamped (world s) message type] [].
Proof.
  unfold logging. rewrite addLog_run. unfold advance. cbn.
  now rewrite app_nil_r.
Qed.

Lemma fetched_advance (s : Sys) (request : Request) (w : World) :
  advance s (fetched s request w) [] [EvFetch request].
Proof. unfold advance. cbn. now rewrite loggedAll_nil. Qed.

Lemma verifyGithubToken_advance (token : string) (s s' : Sys)
    (r : Completion string) :
  verifyGithubToken token s = (s', r) ->
  advance s s' [] [EvFetch (userRequest token)].
Proof.
  rewrite verifyGithubToken_run.
  destruct (network (world s) (userRequest token)) as [w [response|e]];
    intros [= <- _]; apply fetched_advance.
Qed.

Lemma createRepository_advance (token name description : string)
    (s s' : Sys) (r : Completion Repo.t) :
  createRepository token name description s = (s', r) ->
  exists events, advance s s' [] events /\ Forall additive events.
Proof.
  rewrite createRepository_run. cbn zeta.
  set (request := createRequest token name description).
  assert (Hpost : additive (EvFetch request)) by (cbn; auto).
  assert (Hget : additive (EvFetch (userRequest token))) by (cbn; auto).
  destruct (network (world s) request) as [w [response|e]].
  - destruct (parsed response) as [data|e].
    + destruct (ok response).
      * intros [= <- _]. exists [EvFetch request].
        split; [apply fetched_advance | now constructor].
      * destruct (match Json.message data with
                  | Some m => truthy m && includes m "name already exists"
                  | None => false
                  end).
        -- destruct (verifyGithubToken token (fetched s request w))
             as [s2 [login|e]] eqn:Hverify;
             intros [= <- _];
             exists ([EvFetch request] ++ [EvFetch (userRequest token)]);
             (split; [|now repeat constructor]);
             apply (advance_trans s (fetched s request w) s2 [] []);
             (apply fetched_advance || now apply verifyGithubToken_advance in Hverify).
        -- intros [= <- _]. exists [EvFetch request].
           split; [apply fetched_advance | now constructor].
    + intros [= <- _]. exists [EvFetch request].
      split; [apply fetched_advance | now constructor].
  - intros [= <- _]. exists [EvFetch request].
    split; [apply fetched_advance | now constructor].
Qed.

Lemma addLog_silent (type : LogType) (msg : string) (s : Sys) :
  trace (fst (addLog msg type s)) = trace s.
Proof. now rewrite addLog_run. Qed.

(** One turn of the loop under the callback of [handleDeploy]: one info
    entry, and events that remove nothing. *)
Lemma pushFile_advance (token username repoName : string) (file : FileNode)
    (s s' : Sys) (r : Completion unit) :
  pushFile token username repoName (fun msg => addLog msg info) file s
  = (s', r) ->
  exists entry events,
    advance s s' [entry] events /\ Forall additive events
    /\ message entry = ("Pushing " ++ path file ++ "...")%string
    /\ type entry = info.
Proof.
  rewrite pushFile_run, addLog_run. cbn zeta.
  set (msg := ("Pushing " ++ path file ++ "...")%string).
  set (called := mkSys _ _ _ _).
  set (check := checkRequest token username repoName file).
  assert (Hcheck : additive (EvFetch check)) by (cbn; auto).
  destruct (network (world called) check) as [w1 lookup].
  set (put := putRequest token username repoName file (shaOf lookup)).
  assert (Hput : additive (EvFetch put)) by (cbn; auto).
  assert (Hadv : forall w2,
    advance s (fetched (fetched called check w1) put w2)
      [stamped (world s) msg info] [EvProgress msg; EvFetch check; EvFetch put]).
  { intros w2. unfold advance. cbn. repeat split.
    now rewrite <- !app_assoc. }
  destruct (network w1 put) as [w2 [res|e]]; intros [= <- _];
    exists (stamped (world s) msg info),
           [EvProgress msg; EvFetch check; EvFetch put];
    (split; [apply Hadv|split; [now repeat constructor|now split]]).
Qed.

Lemma pushFilesToRepo_advance (token username repoName : string)
    (files : list FileNode) (s s' : Sys) (r : Completion unit) :
  pushFilesToRepo token username repoName files (fun msg => addLog msg info) s
  = (s', r) ->
  exists new events pushed,
    advance s s' new events /\ Forall additive events
    /\ narration new
       = map (fun file => ("Pushing " ++ path file ++ "...", info)%string) pushed
    /\ (exists rest, files = pushed ++ rest)
    /\ (r = Normal tt -> pushed = files).
Proof.
  unfold pushFilesToRepo. revert s.
  induction files as [|file files IH]; intros s; cbn [for_of].
  - intros [= <- <-]. exists [], [], [].
    split; [apply advance_refl|]. split; [constructor|].
    split; [reflexivity|]. split; [now exists [] | reflexivity].
  - unfold bind at 1.
    destruct (pushFile token username repoName (fun msg => addLog msg info) file s)
      as [s1 [[]|e]] eqn:Hfile;
      apply pushFile_advance in Hfile
        as (entry & events1 & Hadv1 & Hadd1 & Hmsg & Htype).
    + intros Hrest.
      apply IH in Hrest
        as (new & events & pushed & Hadv & Hadd & Hnarr & [rest Hrest] & Hall).
      exists (entry :: new), (events1 ++ events), (file :: pushed).
      split; [apply (advance_trans s s1 s' [entry] new); assumption|].
      split; [now apply Forall_app|].
      split; [|].
      { change (narration (entry :: new))
          with ((message entry, type entry) :: narration new).
        now rewrite Hmsg, Htype, Hnarr. }
      split; [exists rest; cbn; now rewrite Hrest|].
      intros Hr. now rewrite (Hall Hr).
    + intros [= <- <-]. exists [entry], events1, [file].
      split; [assumption|]. split; [assumption|].
      split; [unfold narration; cbn; now rewrite Hmsg, Htype|].
      split; [now exists files | discriminate].
Qed.
End Advance.

(* ================================================================= *)
(** ** Rules for reasoning about a run *)

Section Rules.
Context `{Environment}.

Lemma wp_run {A} (m : M A) (Q : Sys -> Completion A -> Prop) (s s' : Sys)
    (r : Completion A) :
  m s = (s', r) -> wp m Q s -> Q s' r.
Proof. unfold wp. now intros ->. Qed.

Lemma wp_known {A} (m : M A) (Q : Sys -> Completion A -> Prop) (s s' : Sys)
    (r : Completion A) :
  m s = (s', r) -> Q s' r -> wp m Q s.
Proof. unfold wp. now intros ->. Qed.

Lemma wp_ret {A} (a : A) (Q : Sys -> Completion A -> Prop) (s : Sys) :
  Q s (Normal a) -> wp (ret a) Q s.
Proof. exact (fun q => q). Qed.

Lemma wp_bind {A B} (m : M A) (k : A -> M B)
    (Q : Sys -> Completion B -> Prop) (s : Sys) :
  wp m (fun s1 r1 =>
          match r1 with
          | Normal a => wp (k a) Q s1
          | Throw e => Q s1 (Throw e)
          end) s ->
  wp (bind m k) Q s.
Proof. unfold wp, bind. now destruct (m s) as [s1 [a|e]]. Qed.

Lemma wp_try_catch {A} (body : M A) (handler : Error -> M A)
    (Q : Sys -> Completion A -> Prop) (s : Sys) :
  wp body (fun s1 r1 =>
             match r1 with
             | Normal a => Q s1 (Normal a)
             | Throw e => wp (handler e) Q s1
             end) s ->
  wp (try_catch body handler) Q s.
Proof. unfold wp, try_catch. now destruct (body s) as [s1 [a|e]]. Qed.

Lemma wp_try_finally {A} (body : M A) (cleanup : M unit)
    (Q : Sys -> Completion A -> Prop) (s : Sys) :
  wp body (fun s1 r1 =>
             wp cleanup (fun s2 r2 =>
                           match r2 with
                           | Normal _ => Q s2 r1
                           | Throw e => Q s2 (Throw e)
                           end) s1) s ->
  wp (try_finally body cleanup) Q s.
Proof.
  unfold wp, try_finally. destruct (body s) as [s1 r1]. cbn.
  now destruct (cleanup s1) as [s2 [[]|e]].
Qed.

Lemma wp_modify_app (f : AppState -> AppState)
    (Q : Sys -> Completion unit -> Prop) (s : Sys) :
  Q (withApp s (f (app s))) (Normal tt) -> wp (modify_app f) Q s.
Proof. exact (fun q => q). Qed.

Lemma wp_addLog (message : string) (type : LogType)
    (Q : Sys -> Completion unit -> Prop) (s : Sys) :
  Q (logging s message type) (Normal tt) -> wp (addLog message type) Q s.
Proof. unfold wp, logging. now rewrite addLog_run. Qed.

Lemma wp_createRepository (token name description : string)
    (Q : Sys -> Completion Repo.t -> Prop) (s : Sys) :
  (forall s' r events,
     advance s s' [] events -> Forall additive events ->
     (forall repo, r = Normal repo -> describesRepositories ->
                   Repo.html_url repo <> None) ->
     Q s' r) ->
  wp (createRepository token name description) Q s.
Proof.
  intros HQ. unfold wp.
  destruct (createRepository token name description s) as [s' r] eqn:Hrun.
  pose proof (createRepository_advance _ _ _ _ _ _ Hrun)
    as (events & Hadv & Hadd).
  apply (HQ s' r events); [assumption..|].
  intros repo -> Hupstream.
  exact (createRepository_url _ _ _ _ _ _ Hupstream Hrun).
Qed.

Lemma wp_pushFilesToRepo (token username repoName : string)
    (files : list FileNode) (Q : Sys -> Completion unit -> Prop) (s : Sys) :
  (forall s' r new events,
     advance s s' new events -> Forall additive events -> Q s' r) ->
  wp (pushFilesToRepo token username repoName files
        (fun msg => addLog msg info)) Q s.
Proof.
  intros HQ. unfold wp.
  destruct (pushFilesToRepo token username repoName files
              (fun msg => addLog msg info) s) as [s' r] eqn:Hrun.
  apply pushFilesToRepo_advance in Hrun
    as (new & events & pushed & Hadv & Hadd & _).
  now apply (HQ s' r new events).
Qed.

Lemma wp_createVercelProject (token name repo : string)
    (Q : Sys -> Completion string -> Prop) (s : Sys) :
  (forall w r, Q (withWorld s w) r) ->
  wp (createVercelProject token name repo) Q s.
Proof.
  intros HQ. unfold wp, createVercelProject, bind, ask, settle.
  destruct (vercelService (world s) token name repo) as [w [handle|e]];
    apply HQ.
Qed.

Lemma wp_mono {A} (m : M A) (Q Q' : Sys -> Completion A -> Prop) (s : Sys) :
  (forall s' r, Q s' r -> Q' s' r) -> wp m Q s -> wp m Q' s.
Proof. unfold wp. auto. Qed.

Lemma wp_getApp (Q : Sys -> Completion AppState -> Prop) (s : Sys) :
  Q s (Normal (app s)) -> wp getApp Q s.
Proof. exact (fun q => q). Qed.

Lemma wp_localStorage_getItem
    (Q : Sys -> Completion (option AppConfig) -> Prop) (s : Sys) :
  Q s (Normal (localStorage s)) -> wp localStorage_getItem Q s.
Proof. exact (fun q => q). Qed.

Lemma wp_localStorage_setItem (v : AppConfig)
    (Q : Sys -> Completion unit -> Prop) (s : Sys) :
  (forall w, Q (mkSys w (trace s) (app s) (Some v)) (Normal tt)) ->
  (forall w e, Q (withWorld s w) (Throw e)) ->
  wp (localStorage_setItem v) Q s.
Proof.
  intros Hstored Hrefused. unfold wp, localStorage_setItem, bind, ask.
  destruct (Storage_setItem (world s) v) as [w [e|]];
    [apply Hrefused | apply Hstored].
Qed.

Lemma wp_generateProjectCode (prompt mode key : string)
    (Q : Sys -> Completion GeneratedProject -> Prop) (s : Sys) :
  (forall w r, Q (withWorld s w) r) ->
  wp (generateProjectCode prompt mode key) Q s.
Proof.
  intros HQ. unfold wp, generateProjectCode, bind, ask, settle.
  destruct (geminiService (world s) prompt mode key) as [w [generated|e]];
    apply HQ.
Qed.

Lemma wp_verifyGithubToken (token : string)
    (Q : Sys -> Completion string -> Prop) (s : Sys) :
  (forall s' r, advance s s' [] [EvFetch (userRequest token)] -> Q s' r) ->
  wp (verifyGithubToken token) Q s.
Proof.
  intros HQ. unfold wp.
  destruct (verifyGithubToken token s) as [s' r] eqn:Hrun.
  apply HQ. now apply verifyGithubToken_advance in Hrun.
Qed.

Lemma logging_app (s : Sys) (message : string) (type : LogType) :
  app (logging s message type)
  = logged (app s) (stamped (world s) message type).
Proof. unfold logging. now rewrite addLog_run. Qed.

Lemma logging_trace (s : Sys) (message : string) (type : LogType) :
  trace (logging s message type) = trace s.
Proof. unfold logging. now rewrite addLog_run. Qed.

Lemma logging_localStorage (s : Sys) (message : string) (type : LogType) :
  localStorage (logging s message type) = localStorage s.
Proof. unfold logging. now rewrite addLog_run. Qed.

Lemma logging_world (s : Sys) (message : string) (type : LogType) :
  world (logging s message type) = fst (stamp (world s)).
Proof. unfold logging. now rewrite addLog_run. Qed.
End Rules.

(** Take one step of the program under [wp]. *)
Ltac step_wp :=
  lazymatch goal with
  | |- wp (bind _ _) _ _ => apply wp_bind
  | |- wp (try_catch _ _) _ _ => apply wp_try_catch
  | |- wp (try_finally _ _) _ _ => apply wp_try_finally
  | |- wp (addLog _ _) _ _ => apply wp_addLog
  | |- wp (ret _) _ _ => apply wp_ret
  | |- wp (setStep _) _ _ => apply wp_modify_app
  | |- wp (setRepoUrl _) _ _ => apply wp_modify_app
  | |- wp (setDeploymentUrl _) _ _ => apply wp_modify_app
  | |- wp (setIsLoading _) _ _ => apply wp_modify_app
  | |- wp (setProject _) _ _ => apply wp_modify_app
  | |- wp (setConfig _) _ _ => apply wp_modify_app
  | |- wp (setPrompt _) _ _ => apply wp_modify_app
  | |- wp (if ?b then _ else _) _ _ => destruct b eqn:?
  | |- wp (match ?x with Some _ => _ | None => _ end) _ _ => destruct x eqn:?
  | |- wp getApp _ _ => apply wp_getApp
  | |- wp localStorage_getItem _ _ => apply wp_localStorage_getItem
  | |- wp (localStorage_setItem _) _ _ =>
      apply wp_localStorage_setItem; [intros ?w | intros ?w ?e]
  | |- wp (generateProjectCode _ _ _) _ _ =>
      apply wp_generateProjectCode; intros ?w [?generated|?e]
  | |- wp (verifyGithubToken _) _ _ =>
      apply wp_verifyGithubToken;
      let s' := fresh "verified" in
      let Happ := fresh "Happ" in
      let Hstore := fresh "Hstore" in
      let Htrace := fresh "Htrace" in
      intros s' [?username|?e] (Happ & Hstore & Htrace)
  | |- wp (createRepository _ _ _) _ _ =>
      apply wp_createRepository;
      let s' := fresh "created" in
      let events := fresh "events" in
      let Happ := fresh "Happ" in
      let Hstore := fresh "Hstore" in
      let Htrace := fresh "Htrace" in
      let Hadd := fresh "Hadd" in
      let Hurl := fresh "Hurl" in
      intros s' [?repo|?e] events (Happ & Hstore & Htrace) Hadd Hurl
  | |- wp (pushFilesToRepo _ _ _ _ _) _ _ =>
      apply wp_pushFilesToRepo;
      let s' := fresh "pushed" in
      let new := fresh "new" in
      let events := fresh "events" in
      let Happ := fresh "Happ" in
      let Hstore := fresh "Hstore" in
      let Htrace := fresh "Htrace" in
      let Hadd := fresh "Hadd" in
      intros s' [[]|?e] new events (Happ & Hstore & Htrace) Hadd
  | |- wp (createVercelProject _ _ _) _ _ =>
      apply wp_createVercelProject; intros ?w [?handle|?e]
  end.

(** Bring the state of the goal back to the state the run started in. *)
Ltac page :=
  repeat first
    [ progress rewrite ?logging_app, ?logging_trace, ?logging_localStorage
    | progress cbn [app trace localStorage world withApp withWorld logged
                    loggedAll step config prompt logs project deploymentUrl
                    repoUrl isLoading]
    | match goal with
      | E : app ?x = _ |- context [app ?x] => rewrite E
      | E : trace ?x = _ |- context [trace ?x] => rewrite E
      | E : localStorage ?x = _ |- context [localStorage ?x] => rewrite E
      end ];
  rewrite <- ?app_assoc.

(* ================================================================= *)
(** ** Deploying *)

Section Deploy.
Context `{Environment}.

(** What the [try] block of [handleDeploy] can do to the state, however it
    ends: it appends log entries, sends requests that remove nothing, and
    leaves the configuration, the prompt, the project and the storage
    alone.  When it throws, the stage and the deployment URL are as
    before; when it completes, the stage is [SUCCESS], and a repository URL
    is stored when the upstream describes the repositories it creates. *)
Lemma deploySteps_outcome (cfg : AppConfig) (p : GeneratedProject) (s : Sys) :
  wp (deploySteps cfg p)
     (fun s' r =>
        exists new events,
          trace s' = trace s ++ events /\ Forall additive events
          /\ localStorage s' = localStorage s
          /\ config (app s') = config (app s)
          /\ prompt (app s') = prompt (app s)
          /\ project (app s') = project (app s)
          /\ isLoading (app s') = isLoading (app s)
          /\ logs (app s') = logs (app s) ++ new
          /\ match r with
             | Normal _ =>
                 step (app s') = SUCCESS
                 /\ (describesRepositories -> repoUrl (app s') <> None)
             | Throw _ =>
                 step (app s') = step (app s)
                 /\ deploymentUrl (app s') = deploymentUrl (app s)
             end) s.
Proof.
  unfold deploySteps.
  repeat (step_wp; cbv beta iota).
  all: page.
  all: do 2 eexists.
  all: split; [reflexivity|].
  all: repeat split; try reflexivity; try discriminate.
  all: try (intros Hupstream; now apply (Hurl _ eq_refl)).
  all: repeat (apply Forall_app; split); assumption.
Qed.

Lemma handleDeploy_begins (s : Sys) (p : GeneratedProject) :
  project (app s) = Some p ->
  truthy (githubUsername (config (app s))) = true ->
  handleDeploy s
  = try_finally
      (try_catch (deploySteps (config (app s)) p)
                 (fun e => addLog e error ;; setStep REVIEW))
      (setIsLoading false) (deploying s).
Proof.
  intros Hproject Huser. unfold handleDeploy, bind at 1, getApp.
  now rewrite Hproject, Huser.
Qed.

(** C5. When the [try] block of [handleDeploy] throws [e], at whichever
    of its steps, the handler completes; the state is the one the
    exception was thrown in, with one more log entry, of severity error and
    message [e], the stage [REVIEW] and the loading flag off.  The entries
    appended before are all there, after those of the state the call
    started in; the project, the configuration, the storage and the
    deployment URL are those of the start; and every request sent was a
    [GET], a [POST] or a [PUT]. *)
Theorem handleDeploy_failure (s failed : Sys) (p : GeneratedProject)
    (e : Error) :
  project (app s) = Some p ->
  truthy (githubUsername (config (app s))) = true ->
  deploySteps (config (app s)) p (deploying s) = (failed, Throw e) ->
  exists entry earlier events,
    handleDeploy s
    = (mkSys (fst (stamp (world failed))) (trace failed)
         (mkAppState REVIEW (config (app failed)) (prompt (app failed))
            (logs (app failed) ++ [entry]) (project (app failed))
            (deploymentUrl (app failed)) (repoUrl (app failed)) false)
         (localStorage failed),
       Normal tt)
    /\ message entry = e /\ type entry = error
    /\ logs (app failed) = logs (app s) ++ earlier
    /\ trace failed = trace s ++ events /\ Forall additive events
    /\ project (app failed) = project (app s)
    /\ config (app failed) = config (app s)
    /\ deploymentUrl (app failed) = deploymentUrl (app s)
    /\ localStorage failed = localStorage s.
Proof.
  intros Hproject Huser Hsteps.
  pose proof (wp_run _ _ _ _ _ Hsteps (deploySteps_outcome _ _ _))
    as (earlier & events & Htrace & Hadd & Hstore & Hconfig & _ & Hproj & _
        & Hlogs & _ & Hurl).
  exists (stamped (world failed) e error), earlier, events.
  split; [|now repeat split].
  rewrite (handleDeploy_begins s p Hproject Huser).
  unfold try_finally, try_catch. rewrite Hsteps.
  unfold bind. rewrite addLog_run. reflexivity.
Qed.
End Deploy.

(* ================================================================= *)
(** ** A deployment without hosting *)

Section WithoutHosting.
Context `{Environment}.

Lemma includes_pushing (p : string) :
  includes p skipNotice = false ->
  includes ("Pushing " ++ p ++ "...") skipNotice = false.
Proof.
  intros Hp. cbn [append]. rewrite !includes_cons.
  change (p ++ "...")%string with (p ++ String "." "..")%string.
  now rewrite (includes_before_stop "." skipNotice ".." eq_refl eq_refl p Hp).
Qed.

Lemma includes_repository_created (url : string) :
  includes url skipNotice = false ->
  includes ("Repository created: " ++ url) skipNotice = false.
Proof.
  intros Hurl. cbn [append]. rewrite !includes_cons. now rewrite Hurl.
Qed.

Lemma mentioning_narration (needle : string) (entries : list LogEntry) :
  length (mentioning needle entries)
  = length (filter (fun line => includes (fst line) needle) (narration entries)).
Proof.
  unfold mentioning, narration.
  induction entries as [|entry entries IH]; [reflexivity|].
  cbn. destruct (includes (message entry) needle); cbn; now rewrite IH.
Qed.

Lemma pushing_never_mentions (files : list FileNode) :
  (forall file, In file files -> includes (path file) skipNotice = false) ->
  filter (fun line : string * LogType => includes (fst line) skipNotice)
    (map (fun file => (("Pushing " ++ path file ++ "...")%string, info)) files)
  = [].
Proof.
  induction files as [|file files IH]; [reflexivity|].
  intros Hfiles. cbn [map filter fst].
  rewrite includes_pushing by (apply Hfiles; now left).
  apply IH. intros other Hother. apply Hfiles. now right.
Qed.

Lemma deployNarration_mentions_once (repo : Repo.t) (files : list FileNode) :
  includes (showOpt (Repo.html_url repo)) skipNotice = false ->
  (forall file, In file files -> includes (path file) skipNotice = false) ->
  length (filter (fun line : string * LogType => includes (fst line) skipNotice)
            (deployNarration repo files)) = 1.
Proof.
  intros Hurl Hfiles. unfold deployNarration.
  rewrite !filter_app, pushing_never_mentions by assumption.
  cbn [filter fst]. now rewrite includes_repository_created.
Qed.

Lemma announced_app (s : Sys) (repo : Repo.t) :
  app (announced s repo)
  = logged
      (mkAppState (step (app s)) (config (app s)) (prompt (app s))
         (logs (app s)) (project (app s)) (deploymentUrl (app s))
         (Repo.html_url repo) (isLoading (app s)))
      (stamped (world s) ("Repository created: " ++ showOpt (Repo.html_url repo)) success).
Proof.
  unfold announced, bind, setRepoUrl, modify_app. now rewrite addLog_run.
Qed.

(** C6, as the code has it.  From a state with a project and a GitHub user
    name but no Vercel token, when the repository is created and every
    file is pushed, [handleDeploy] ends in stage [SUCCESS] with the URL of
    the repository stored and the deployment URL as it was before the call.
    It appends the announcement of the creation, the URL, one line per
    file, the end of the push and, last, the warning
    ["Skipping Vercel deployment (no token provided)."]; when neither the
    URL nor a path contains ["Skipping Vercel deployment"], that warning is
    the only entry appended that does. *)
Theorem handleDeploy_without_hosting (s created pushed : Sys)
    (p : GeneratedProject) (repo : Repo.t) :
  project (app s) = Some p ->
  truthy (githubUsername (config (app s))) = true ->
  vercelToken (config (app s)) = EmptyString ->
  createRepository (githubToken (config (app s))) (name p) (description p)
    (logging (deploying s) "Creating GitHub repository..." info)
  = (created, Normal repo) ->
  pushFilesToRepo (githubToken (config (app s))) (githubUsername (config (app s))) (name p) (files p)
    (fun msg => addLog msg info) (announced created repo)
  = (pushed, Normal tt) ->
  exists final new,
    handleDeploy s = (final, Normal tt)
    /\ step (app final) = SUCCESS
    /\ repoUrl (app final) = Repo.html_url repo
    /\ deploymentUrl (app final) = deploymentUrl (app s)
    /\ logs (app final) = logs (app s) ++ new
    /\ narration new = deployNarration repo (files p)
    /\ (includes (showOpt (Repo.html_url repo)) "Skipping Vercel deployment" = false ->
        (forall file, In file (files p) ->
           includes (path file) "Skipping Vercel deployment" = false) ->
        length (mentioning "Skipping Vercel deployment" new) = 1).
Proof.
  intros Hproject Huser Hvercel Hcreate Hpush.
  set (cfg := config (app s)) in *.
  pose proof (createRepository_advance _ _ _ _ _ _ Hcreate)
    as (events1 & (Happ1 & _) & _).
  pose proof (pushFilesToRepo_advance _ _ _ _ _ _ _ Hpush)
    as (lines & events2 & sent & (Happ2 & _) & _ & Hlines & _ & Hsent).
  rewrite (Hsent eq_refl) in Hlines. clear Hsent.
  rewrite announced_app in Happ2.
  assert (Hwp : wp handleDeploy
    (fun final r =>
       r = Normal tt
       /\ step (app final) = SUCCESS
       /\ repoUrl (app final) = Repo.html_url repo
       /\ deploymentUrl (app final) = deploymentUrl (app s)
       /\ exists new,
            logs (app final) = logs (app s) ++ new
            /\ narration new = deployNarration repo (files p)) s).
  { unfold wp. rewrite (handleDeploy_begins s p Hproject Huser).
    fold cfg.
    change (wp (try_finally
                  (try_catch (deploySteps cfg p)
                             (fun e => addLog e error ;; setStep REVIEW))
                  (setIsLoading false))
              (fun final r =>
                 r = Normal tt
                 /\ step (app final) = SUCCESS
                 /\ repoUrl (app final) = Repo.html_url repo
                 /\ deploymentUrl (app final) = deploymentUrl (app s)
                 /\ exists new,
                      logs (app final) = logs (app s) ++ new
                      /\ narration new = deployNarration repo (files p))
              (deploying s)).
    unfold deploySteps. rewrite Hvercel. cbn [truthy].
    do 5 (step_wp; cbv beta iota).
    apply (wp_known _ _ _ _ _ Hcreate).
    do 5 (step_wp; cbv beta iota).
    apply (wp_known _ _ _ _ _ Hpush).
    repeat (step_wp; cbv beta iota).
    page. repeat split.
    eexists. split; [reflexivity|].
    unfold narration, deployNarration in *. rewrite !map_app, Hlines.
    reflexivity. }
  unfold wp in Hwp.
  destruct (handleDeploy s) as [final r]. cbn [fst snd] in Hwp.
  destruct Hwp as (-> & Hstep & Hrepo & Hurl & new & Hlogs & Hnarr).
  exists final, new. repeat split; try assumption.
  intros Hclean Hfiles. rewrite mentioning_narration, Hnarr.
  now apply deployNarration_mentions_once.
Qed.
End WithoutHosting.

(* ================================================================= *)
(** ** The invariant of the stage *)

Section Invariant.
Context `{Environment}.

Lemma perform_preserves (act : Action) (s : Sys) :
  describesRepositories ->
  successHasRepo (app s) ->
  wp (perform act) (fun s' _ => successHasRepo (app s')) s.
Proof.
  intros Hupstream Hinv. destruct act; cbn [perform].
  - unfold handleSaveConfig.
    repeat (step_wp; cbv beta iota); page;
      unfold successHasRepo; cbn; (discriminate || assumption).
  - unfold handleGenerate.
    repeat (step_wp; cbv beta iota); page;
      unfold successHasRepo; cbn; (discriminate || assumption).
  - unfold handleDeploy.
    repeat (step_wp; cbv beta iota); try assumption.
    eapply wp_mono; [|apply deploySteps_outcome].
    intros s' [[]|e]
      (new & events & _ & _ & _ & _ & _ & _ & _ & _ & Hstep & Hrepo);
      repeat (step_wp; cbv beta iota); page;
      unfold successHasRepo; cbn; (discriminate || now intros _; auto).
  - now apply wp_modify_app.
  - now apply wp_modify_app.
  - unfold onChangeGithubToken. repeat (step_wp; cbv beta iota). exact Hinv.
  - unfold onChangeVercelToken. repeat (step_wp; cbv beta iota). exact Hinv.
  - unfold onChangeGeminiKey. repeat (step_wp; cbv beta iota). exact Hinv.
  - now apply wp_modify_app.
Qed.

(** C9, as the code has it.  When the upstream describes the repositories
    it creates (every successful answer to a creation request that carries
    a JSON body has an [html_url] in it), then in every state the page can
    reach, from its first render and through any sequence of its
    operations, a stage [SUCCESS] comes with a repository URL that is
    set. *)
Theorem reachable_successHasRepo (s : Sys) :
  describesRepositories -> reachable s -> successHasRepo (app s).
Proof.
  intros Hupstream. induction 1 as [w stored | s act _ IH].
  - unfold mount, bind, localStorage_getItem. cbn.
    destruct stored; unfold successHasRepo; cbn; discriminate.
  - exact (perform_preserves act s Hupstream IH).
Qed.
End Invariant.

(* ================================================================= *)
(** ** The program on concrete inputs *)

Import Scripted.

(** The second of three files is refused: the first is pushed, the third
    is never touched. *)
Lemma pushFilesToRepo_aborts_witness :
  exists final events,
    @pushFilesToRepo env "ghp_1" "octocat" "hello-world" threeFiles
      (fun msg => @addLog env msg info)
      (start [notFound; uploaded; found "3a1"; rejectedUpload]
             (Throw "offline") reviewing)
    = (final, Throw "Failed to upload style.css")
    /\ Forall2 (@fileEvents env "ghp_1" "octocat" "hello-world")
         [mkFileNode "index.html" "<html></html>";
          mkFileNode "style.css" "body {}"] events
    /\ trace final = concat events
    /\ length (logs (app final)) = 2.
Proof.
  edestruct (@pushFilesToRepo_aborts_at_failed_upload env
               "ghp_1" "octocat" "hello-world"
               (fun msg => @addLog env msg info)
               (fun msg s => eq_refl)
               [mkFileNode "index.html" "<html></html>"]
               [mkFileNode "app.js" "main()"]
               (mkFileNode "style.css" "body {}")
               (start [notFound; uploaded; found "3a1"; rejectedUpload]
                      (Throw "offline") reviewing))
    as (final & events & Hrun & Hevents & Htrace & Happ & _).
  - lazy; reflexivity.
  - lazy; reflexivity.
  - lazy; reflexivity.
  - lazy; reflexivity.
  - lazy; reflexivity.
  - exists final, events. repeat split; try assumption.
    now rewrite Happ.
Defined.

(** The code's message is not the one the specification quotes. *)
Lemma pushFilesToRepo_error_text :
  let outcome :=
    snd (@pushFilesToRepo env "ghp_1" "octocat" "hello-world" threeFiles
           (fun msg => @addLog env msg info)
           (start [notFound; uploaded; found "3a1"; rejectedUpload]
                  (Throw "offline") reviewing)) in
  outcome = Throw "Failed to upload style.css"
  /\ outcome <> Throw "upload failed for style.css".
Proof. vm_compute. split; [reflexivity | discriminate]. Qed.

Lemma createRepository_unsuccessful_witness :
  @createRepository env "ghp_1" "hello-world" "A hello world page"
    (start [nameExists; user "octocat"] (Throw "offline") reviewing)
  = (@mkSys env (mkScript [] (Throw "offline") (Throw "no hosting") 0%Z)
       [EvFetch (createRequest "ghp_1" "hello-world" "A hello world page");
        EvFetch (userRequest "ghp_1")]
       reviewing None,
     Normal (Repo.mk "hello-world"
               (Some "https://github.com/octocat/hello-world"))).
Proof.
  exact (proj1
           (@createRepository_unsuccessful env
              "ghp_1" "hello-world" "A hello world page"
              (start [nameExists; user "octocat"] (Throw "offline") reviewing)
              _ _ eq_refl eq_refl)
           _ eq_refl eq_refl).
Defined.

(** The collision is reported and the verification that follows fails: no
    URL is returned.  An unsuccessful answer without a JSON body raises the
    error of the parser, not the upstream's message. *)
Lemma createRepository_collision_may_throw :
  snd (@createRepository env "ghp_1" "hello-world" "A hello world page"
         (start [nameExists; unauthorized] (Throw "offline") reviewing))
  = Throw "Invalid GitHub Token"
  /\ snd (@createRepository env "ghp_1" "hello-world" "A hello world page"
            (start [badGateway] (Throw "offline") reviewing))
     = Throw "Unexpected token < in JSON at position 0".
Proof. vm_compute. split; reflexivity. Qed.

Lemma createRepository_collision_invalid_token_witness :
  @createRepository env "ghp_1" "hello-world" "A hello world page"
    (start [nameExists; unauthorized] (Throw "offline") reviewing)
  = (@mkSys env (mkScript [] (Throw "offline") (Throw "no hosting") 0%Z)
       [EvFetch (createRequest "ghp_1" "hello-world" "A hello world page");
        EvFetch (userRequest "ghp_1")]
       reviewing None,
     Throw "Invalid GitHub Token").
Proof.
  exact (@createRepository_collision_invalid_token env
           "ghp_1" "hello-world" "A hello world page"
           (start [nameExists; unauthorized] (Throw "offline") reviewing)
           _ _ _ _ _ _ eq_refl eq_refl eq_refl eq_refl eq_refl eq_refl eq_refl).
Defined.

Lemma handleGenerate_failure_witness :
  exists announcement failure,
    @handleGenerate env (start [] (Throw "Gemini is unreachable") prompting)
    = (@mkSys env
         (mkScript [] (Throw "Gemini is unreachable") (Throw "no hosting") 2%Z)
         []
         (mkAppState PROMPT octocat "a blog" [announcement; failure]
            (Some helloWorld) None None false)
         None,
       Normal tt)
    /\ type announcement = info
    /\ message failure = "Gemini is unreachable" /\ type failure = error.
Proof.
  exact (@handleGenerate_failure env
           (start [] (Throw "Gemini is unreachable") prompting)
           _ _ eq_refl eq_refl).
Defined.

(** The project of the earlier generation outlives the failed one. *)
Lemma handleGenerate_failure_keeps_project :
  let final :=
    fst (@handleGenerate env
           (start [] (Throw "Gemini is unreachable") prompting)) in
  step (app final) = PROMPT
  /\ project (app final) = Some helloWorld
  /\ project (app final) <> None.
Proof. vm_compute. repeat split. discriminate. Qed.

(** After Reset the project and both URLs are still in the state. *)
Lemma onClickReset_discards_nothing :
  let final := fst (@onClickReset env (start [] (Throw "offline") finished)) in
  resetButtonRendered finished = true
  /\ step (app final) = PROMPT
  /\ project (app final) = Some helloWorld
  /\ repoUrl (app final) = Some "https://github.com/octocat/hello-world"
  /\ deploymentUrl (app final) = Some "https://hello-world.vercel.app".
Proof. vm_compute. repeat split. Qed.

Lemma handleGenerate_blank_prompt_witness :
  allWhiteSpace blank = true
  /\ @handleGenerate env (start [] (Normal helloWorld) idle)
     = (start [] (Normal helloWorld) idle, Normal tt).
Proof.
  split; [reflexivity|].
  exact (@handleGenerate_blank_prompt env
           (start [] (Normal helloWorld) idle) eq_refl).
Defined.

(** The upload of the only file is refused after the repository was
    created: the stage is back to [REVIEW] and the URL of the repository
    stays. *)
Lemma handleDeploy_failure_witness :
  exists final entry,
    @handleDeploy env
      (start [created "hello-world" "https://github.com/octocat/hello-world";
              notFound; rejectedUpload] (Throw "offline") reviewing)
    = (final, Normal tt)
    /\ step (app final) = REVIEW
    /\ repoUrl (app final) = Some "https://github.com/octocat/hello-world"
    /\ narration (logs (app final))
       = [("Creating GitHub repository...", info);
          ("Repository created: https://github.com/octocat/hello-world", success);
          ("Pushing index.html...", info);
          (message entry, type entry)]
    /\ message entry = "Failed to upload index.html" /\ type entry = error.
Proof.
  edestruct (@handleDeploy_failure env)
    with (s := start [created "hello-world" "https://github.com/octocat/hello-world";
                      notFound; rejectedUpload] (Throw "offline") reviewing)
         (p := helloWorld) (e := "Failed to upload index.html")
    as (entry & earlier & events & Hrun & Hmessage & Htype & _).
  - reflexivity.
  - reflexivity.
  - lazy; reflexivity.
  - eexists. exists entry. split; [exact Hrun|].
    cbn. rewrite Hmessage, Htype. repeat split.
Defined.

Lemma handleDeploy_without_hosting_witness :
  exists final,
    @handleDeploy env
      (start [created "hello-world" "https://github.com/octocat/hello-world";
              notFound; uploaded] (Throw "offline") reviewing)
    = (final, Normal tt)
    /\ step (app final) = SUCCESS
    /\ repoUrl (app final) = Some "https://github.com/octocat/hello-world"
    /\ deploymentUrl (app final) = None
    /\ length (mentioning "Skipping Vercel deployment" (logs (app final))) = 1.
Proof.
  edestruct (@handleDeploy_without_hosting env)
    with (s := start [created "hello-world" "https://github.com/octocat/hello-world";
                      notFound; uploaded] (Throw "offline") reviewing)
         (p := helloWorld)
         (repo := Repo.mk "hello-world"
                           (Some "https://github.com/octocat/hello-world"))
    as (final & new & Hrun & Hstep & Hrepo & Hurl & Hlogs & _ & Honce).
  - reflexivity.
  - reflexivity.
  - reflexivity.
  - lazy; reflexivity.
  - lazy; reflexivity.
  - exists final. repeat split; try assumption.
    rewrite Hlogs. apply Honce; [reflexivity|].
    intros file [<-|[]]. reflexivity.
Defined.

(** A Vercel URL stored by an earlier deployment is still there after a
    deployment without hosting, and a path can bring the words of the
    warning into a second log entry. *)
Lemma handleDeploy_without_hosting_keeps_url :
  let s :=
    start [created "notes" "https://github.com/octocat/notes";
           notFound; uploaded] (Throw "offline") redeployingNotes in
  let final := fst (@handleDeploy env s) in
  project (app s) = Some notes
  /\ githubUsername (config (app s)) = "octocat"
  /\ vercelToken (config (app s)) = EmptyString
  /\ snd (@handleDeploy env s) = Normal tt
  /\ step (app final) = SUCCESS
  /\ repoUrl (app final) = Some "https://github.com/octocat/notes"
  /\ deploymentUrl (app final) = Some "https://hello-world.vercel.app"
  /\ logs (app s) = []
  /\ length (mentioning "Skipping Vercel deployment" (logs (app final))) = 2.
Proof. vm_compute. repeat split. Qed.

(** A verified token and a browser that refuses the write: the merged
    configuration is in the state, nothing is stored, the only entry is the
    error of the storage and the stage has not moved. *)
Lemma handleSaveConfig_storage_refused :
  let s := Full.start [user "octocat"] configuring in
  let final := fst (@handleSaveConfig Full.env s) in
  snd (@verifyGithubToken Full.env (githubToken (config (app s))) s)
  = Normal "octocat"
  /\ step (app final) = CONFIG
  /\ githubUsername (config (app final)) = "octocat"
  /\ localStorage final = None
  /\ narration (logs (app final)) = [("The quota has been exceeded.", error)]
  /\ isLoading (app final) = false.
Proof. vm_compute. repeat split. Qed.

Lemma reachable_successHasRepo_witness :
  @describesRepositories Hub.env
  /\ @reachable Hub.env Hub.deployed
  /\ step (app Hub.deployed) = SUCCESS
  /\ successHasRepo (app Hub.deployed).
Proof.
  assert (Hupstream : @describesRepositories Hub.env).
  { intros w w' token name description response data Hnet _ Hbody.
    injection Hnet as _ <-. injection Hbody as <-. discriminate. }
  assert (Hreach : @reachable Hub.env Hub.deployed)
    by (repeat apply @reachable_perform; apply @reachable_mount).
  split; [exact Hupstream|]. split; [exact Hreach|]. split; [reflexivity|].
  exact (@reachable_successHasRepo Hub.env Hub.deployed Hupstream Hreach).
Defined.

(** The upstream creates the repository and answers without its
    [html_url]: the session ends in stage [SUCCESS] with no repository
    URL. *)
Lemma reachable_success_without_repo :
  @reachable env deployedBare
  /\ step (app deployedBare) = SUCCESS
  /\ repoUrl (app deployedBare) = None
  /\ ~ successHasRepo (app deployedBare).
Proof.
  split; [repeat apply @reachable_perform; apply @reachable_mount|].
  split; [reflexivity|]. split; [reflexivity|].
  intros Hinv. now apply Hinv.
Qed.

(* ================================================================= *)
(** ** What every operation keeps *)

Lemma logging_eq `{Environment} (s : Sys) (message : string)
    (type : LogType) :
  logging s message type
  = mkSys (fst (stamp (world s))) (trace s)
          (logged (app s) (stamped (world s) message type))
          (localStorage s).
Proof. unfold logging. now rewrite addLog_run. Qed.

(** Write the state of the goal field by field, so that a step of the
    program never copies the states before it. *)
Ltac tidy :=
  repeat first
    [ progress rewrite ?logging_eq
    | progress cbn [app trace localStorage world withApp withWorld logged
                    loggedAll step config prompt logs project deploymentUrl
                    repoUrl isLoading]
    | match goal with
      | E : app ?x = _ |- context [app ?x] => rewrite E
      | E : trace ?x = _ |- context [trace ?x] => rewrite E
      | E : localStorage ?x = _ |- context [localStorage ?x] => rewrite E
      end ];
  rewrite <- ?app_assoc.

(** Enter the handler of the operation of the goal and run it up to its
    calls of [deploySteps]. *)
Ltac through_handlers :=
  lazymatch goal with
  | |- wp (perform ?act) _ _ => destruct act; cbn [perform]
  end;
  [ unfold handleSaveConfig | unfold handleGenerate | unfold handleDeploy
  | unfold onClickSettings | unfold onClickReset
  | unfold onChangeGithubToken | unfold onChangeVercelToken
  | unfold onChangeGeminiKey | unfold onChangePrompt ];
  repeat (step_wp; cbv beta iota; tidy).

(** The goal is a state to describe, no longer a program to run. *)
Ltac at_leaf :=
  lazymatch goal with
  | |- wp _ _ _ => fail
  | _ => idtac
  end.

(** Run the program of the goal to its end. *)
Ltac steps := cbv beta iota; tidy; repeat (step_wp; cbv beta iota; tidy).

Section Operations.
Context `{Environment}.

(** X1. Every operation of the page completes: whether the network, the
    generation service, the hosting service and the local storage answer or
    throw, and what they throw being an [Error] object, no handler lets an
    exception out. *)
Theorem perform_never_throws (act : Action) (s : Sys) :
  snd (perform act s) = Normal tt.
Proof.
  change (wp (perform act) (fun _ r => r = Normal tt) s).
  through_handlers; try reflexivity.
  eapply wp_mono; [|apply deploySteps_outcome].
  intros s' [[]|e] _; now steps.
Qed.

(** X2. The log only grows: after any operation the entries that were there
    are still there, in the same order and unchanged, before the new
    ones. *)
Theorem perform_appends_logs (act : Action) (s : Sys) :
  exists new, logs (app (fst (perform act s))) = logs (app s) ++ new.
Proof.
  change (wp (perform act)
            (fun s' _ => exists new, logs (app s') = logs (app s) ++ new) s).
  through_handlers;
    try (at_leaf; page;
         first [ eexists; reflexivity | exists []; now rewrite app_nil_r ]).
  eapply wp_mono; [|apply deploySteps_outcome].
  intros s' [[]|e] (new & _ & _ & _ & _ & _ & _ & _ & _ & Hlogs & _);
    steps; page; cbn in Hlogs; rewrite Hlogs;
    rewrite <- ?app_assoc; eexists; reflexivity.
Qed.

Lemma perform_keeps_project (act : Action) (s : Sys) :
  reviewHasProject (app s) ->
  wp (perform act) (fun s' _ => reviewHasProject (app s')) s.
Proof.
  intros Hinv.
  through_handlers;
    try (at_leaf; page; unfold reviewHasProject; cbn;
         first [ assumption | intros [|[|]]; discriminate
               | intros _; discriminate ]).
  eapply wp_mono; [|apply deploySteps_outcome].
  intros s' [[]|e] (new & events & _ & _ & _ & _ & _ & Hproject & _);
    steps; page; unfold reviewHasProject; cbn;
    intros _; cbn in Hproject; rewrite Hproject;
    match goal with E : project (app s) = Some _ |- _ => rewrite E end;
    discriminate.
Qed.

(** X4. In every state the page can reach, a stage that asks for the review
    panel ([REVIEW], [DEPLOYING] or [SUCCESS]) has a project stored, so the
    panel, with its Reset button, is rendered. *)
Theorem reachable_reviewPanelRendered (s : Sys) :
  reachable s ->
  step (app s) = REVIEW \/ step (app s) = DEPLOYING
  \/ step (app s) = SUCCESS ->
  project (app s) <> None /\ resetButtonRendered (app s) = true.
Proof.
  intros Hreach Hstage.
  assert (Hinv : reviewHasProject (app s)).
  { clear Hstage. induction Hreach as [w stored | s act _ IH].
    - unfold mount, bind, localStorage_getItem. cbn.
      destruct stored; unfold reviewHasProject; cbn;
        intros [|[|]]; discriminate.
    - exact (perform_keeps_project act s IH). }
  specialize (Hinv Hstage). split; [exact Hinv|].
  unfold resetButtonRendered, reviewPanelRendered.
  destruct (project (app s)); [|congruence].
  destruct Hstage as [->|[->| ->]]; reflexivity.
Qed.
End Operations.

(* ================================================================= *)
(** ** Where the requests go *)

Section Requests.
Context `{Environment}.

Lemma prefix_append (a b : string) : String.prefix a (a ++ b) = true.
Proof.
  induction a as [|c a IH]; cbn; [now destruct b|].
  destruct (ascii_dec c c); [exact IH | congruence].
Qed.

Lemma userRequest_toGithub (token : string) :
  toGithubAs token (EvFetch (userRequest token)).
Proof. split; [apply prefix_append | now left]. Qed.

Lemma createRequest_toGithub (token name description : string) :
  toGithubAs token (EvFetch (createRequest token name description)).
Proof. split; [apply prefix_append | now left]. Qed.

Lemma checkRequest_toGithub (token username repoName : string)
    (file : FileNode) :
  toGithubAs token (EvFetch (checkRequest token username repoName file)).
Proof. split; [apply prefix_append | now left]. Qed.

Lemma putRequest_toGithub (token username repoName : string)
    (file : FileNode) (sha : option string) :
  toGithubAs token (EvFetch (putRequest token username repoName file sha)).
Proof. split; [apply prefix_append | now left]. Qed.

(** The requests of [createRepository]: the creation, followed by the
    request for the user on the path of the name collision only. *)
Lemma createRepository_requests (token name description : string)
    (s s' : Sys) (r : Completion Repo.t) :
  createRepository token name description s = (s', r) ->
  exists events,
    advance s s' [] events
    /\ (events = [EvFetch (createRequest token name description)]
        \/ events = [EvFetch (createRequest token name description);
                     EvFetch (userRequest token)]).
Proof.
  rewrite createRepository_run. cbn zeta.
  set (request := createRequest token name description).
  destruct (network (world s) request) as [w [response|e]].
  - destruct (parsed response) as [data|e].
    + destruct (ok response).
      * intros [= <- _]. exists [EvFetch request].
        split; [apply fetched_advance | now left].
      * destruct (match Json.message data with
                  | Some m => truthy m && includes m "name already exists"
                  | None => false
                  end).
        -- destruct (verifyGithubToken token (fetched s request w))
             as [s2 [login|e]] eqn:Hverify;
             intros [= <- _];
             exists ([EvFetch request] ++ [EvFetch (userRequest token)]);
             (split; [|now right]);
             apply (advance_trans s (fetched s request w) s2 [] []);
             (apply fetched_advance || now apply verifyGithubToken_advance in Hverify).
        -- intros [= <- _]. exists [EvFetch request].
           split; [apply fetched_advance | now left].
    + intros [= <- _]. exists [EvFetch request].
      split; [apply fetched_advance | now left].
  - intros [= <- _]. exists [EvFetch request].
    split; [apply fetched_advance | now left].
Qed.

Lemma pushFile_requests (token username repoName : string) (file : FileNode)
    (s s' : Sys) (r : Completion unit) :
  pushFile token username repoName (fun msg => addLog msg info) file s
  = (s', r) ->
  exists events,
    trace s' = trace s ++ events /\ Forall (toGithubAs token) events.
Proof.
  rewrite pushFile_run, addLog_run. cbn zeta.
  set (called := mkSys _ _ _ _).
  set (check := checkRequest token username repoName file).
  destruct (network (world called) check) as [w1 lookup].
  set (put := putRequest token username repoName file (shaOf lookup)).
  assert (Hevents : Forall (toGithubAs token)
                      [EvProgress (progressMessage file); EvFetch check;
                       EvFetch put]).
  { repeat constructor;
      (apply checkRequest_toGithub || apply putRequest_toGithub). }
  destruct (network w1 put) as [w2 [res|e]]; intros [= <- _];
    eexists; (split; [|exact Hevents]); cbn; now rewrite <- !app_assoc.
Qed.

Lemma pushFilesToRepo_requests (token username repoName : string)
    (files : list FileNode) (s s' : Sys) (r : Completion unit) :
  pushFilesToRepo token username repoName files (fun msg => addLog msg info) s
  = (s', r) ->
  exists events,
    trace s' = trace s ++ events /\ Forall (toGithubAs token) events.
Proof.
  unfold pushFilesToRepo. revert s.
  induction files as [|file files IH]; intros s; cbn [for_of].
  - intros [= <- _]. exists []. split; [now rewrite app_nil_r | constructor].
  - unfold bind at 1.
    destruct (pushFile token username repoName (fun msg => addLog msg info) file s)
      as [s1 [[]|e]] eqn:Hfile;
      apply pushFile_requests in Hfile as (events1 & Htrace1 & Hto1).
    + intros Hrest. apply IH in Hrest as (events & Htrace & Hto).
      exists (events1 ++ events).
      split; [now rewrite Htrace, Htrace1, app_assoc | now apply Forall_app].
    + intros [= <- _]. now exists events1.
Qed.

Lemma wp_createRepository_requests (token name description : string)
    (Q : Sys -> Completion Repo.t -> Prop) (s : Sys) :
  (forall s' r events,
     trace s' = trace s ++ events -> Forall (toGithubAs token) events ->
     Q s' r) ->
  wp (createRepository token name description) Q s.
Proof.
  intros HQ. unfold wp.
  destruct (createRepository token name description s) as [s' r] eqn:Hrun.
  apply createRepository_requests in Hrun
    as (events & (_ & _ & Htrace) & Hshape).
  apply (HQ s' r events Htrace).
  destruct Hshape as [-> | ->]; repeat constructor;
    (apply createRequest_toGithub || apply userRequest_toGithub).
Qed.

Lemma wp_pushFilesToRepo_requests (token username repoName : string)
    (files : list FileNode) (Q : Sys -> Completion unit -> Prop) (s : Sys) :
  (forall s' r events,
     trace s' = trace s ++ events -> Forall (toGithubAs token) events ->
     Q s' r) ->
  wp (pushFilesToRepo token username repoName files
        (fun msg => addLog msg info)) Q s.
Proof.
  intros HQ. unfold wp.
  destruct (pushFilesToRepo token username repoName files
              (fun msg => addLog msg info) s) as [s' r] eqn:Hrun.
  apply pushFilesToRepo_requests in Hrun as (events & Htrace & Hto).
  now apply (HQ s' r events).
Qed.
End Requests.

(** As [step_wp], keeping of the requests where they go. *)
Ltac step_requests :=
  lazymatch goal with
  | |- wp (createRepository _ _ _) _ _ =>
      apply wp_createRepository_requests;
      let s' := fresh "created" in
      let events := fresh "events" in
      let Htrace := fresh "Htrace" in
      let Hto := fresh "Hto" in
      intros s' [?repo|?e] events Htrace Hto
  | |- wp (pushFilesToRepo _ _ _ _ _) _ _ =>
      apply wp_pushFilesToRepo_requests;
      let s' := fresh "pushed" in
      let events := fresh "events" in
      let Htrace := fresh "Htrace" in
      let Hto := fresh "Hto" in
      intros s' [[]|?e] events Htrace Hto
  | _ => step_wp
  end.

Section RequestsOfOperations.
Context `{Environment}.

Lemma deploySteps_requests (cfg : AppConfig) (p : GeneratedProject) (s : Sys) :
  wp (deploySteps cfg p)
     (fun s' _ =>
        exists events,
          trace s' = trace s ++ events
          /\ Forall (toGithubAs (githubToken cfg)) events) s.
Proof.
  unfold deploySteps.
  cbv beta iota; repeat (step_requests; cbv beta iota; tidy).
  all: page.
  all: eexists; split; [reflexivity|].
  all: repeat (apply Forall_app; split); assumption.
Qed.

(** X5. The calls of [fetch] that an operation makes through
    [githubService.ts] go to GitHub, and only under the token of the
    configuration: each has a URL that starts with the base of the GitHub
    API and carries that token in its [Authorization] header.  The
    operations that only edit the page make none. *)
Theorem perform_requests_go_to_github (act : Action) (s : Sys) :
  exists events,
    trace (fst (perform act s)) = trace s ++ events
    /\ Forall (toGithubAs (githubToken (config (app s)))) events
    /\ (editsOnly act = true -> events = []).
Proof.
  change (wp (perform act)
            (fun s' _ =>
               exists events,
                 trace s' = trace s ++ events
                 /\ Forall (toGithubAs (githubToken (config (app s)))) events
                 /\ (editsOnly act = true -> events = [])) s).
  through_handlers;
    try (at_leaf; page;
         first
           [ exists []; split; [now rewrite app_nil_r|];
             split; [constructor | reflexivity]
           | eexists; split; [reflexivity|];
             split; [repeat constructor; apply userRequest_toGithub|];
             discriminate ]).
  eapply wp_mono; [|apply deploySteps_requests].
  intros s' [[]|e] (events & Htrace & Hto); steps; page;
    (exists events; split; [reflexivity|]; split; [exact Hto|];
     discriminate).
Qed.
End RequestsOfOperations.

(* ================================================================= *)
(** ** Saving, generating and deploying, case by case *)

Section Cases.
Context `{Environment}.

Lemma wp_result {A} (m : M A) (Q : Sys -> Completion A -> Prop) (s : Sys) :
  wp m Q s -> exists s' r, m s = (s', r) /\ Q s' r.
Proof.
  unfold wp. intros HQ. exists (fst (m s)), (snd (m s)).
  split; [now destruct (m s) | exact HQ].
Qed.

Lemma wp_handleDeploy (s : Sys) (p : GeneratedProject)
    (Q : Sys -> Completion unit -> Prop) :
  project (app s) = Some p ->
  truthy (githubUsername (config (app s))) = true ->
  wp (try_finally
        (try_catch (deploySteps (config (app s)) p)
                   (fun e => addLog e error ;; setStep REVIEW))
        (setIsLoading false)) Q (deploying s) ->
  wp handleDeploy Q s.
Proof.
  intros Hproject Huser. unfold wp.
  now rewrite (handleDeploy_begins s p Hproject Huser).
Qed.

Lemma createVercelProject_run (token name repo : string) (s : Sys) :
  createVercelProject token name repo s
  = match vercelService (world s) token name repo with
    | (w, outcome) => (withWorld s w, outcome)
    end.
Proof.
  unfold createVercelProject, bind, ask, settle.
  now destruct (vercelService (world s) token name repo) as [w [handle|e]].
Qed.

(** X3. Run from any state, the three handlers that wait for a service
    release the loading flag and leave the stage they pass through:
    [handleSaveConfig] ends at [PROMPT] or at the stage it started in,
    [handleGenerate] on a prompt that is not blank ends at [REVIEW] or at
    [PROMPT], and [handleDeploy] past its guard ends at [SUCCESS] or at
    [REVIEW]. *)
Theorem handlers_settle (s : Sys) :
  (let final := app (fst (handleSaveConfig s)) in
   isLoading final = false
   /\ (step final = PROMPT \/ step final = step (app s)))
  /\ (truthy (trim (prompt (app s))) = true ->
      let final := app (fst (handleGenerate s)) in
      isLoading final = false
      /\ (step final = REVIEW \/ step final = PROMPT))
  /\ (project (app s) <> None ->
      truthy (githubUsername (config (app s))) = true ->
      let final := app (fst (handleDeploy s)) in
      isLoading final = false
      /\ (step final = SUCCESS \/ step final = REVIEW)).
Proof.
  split; [|split].
  - change (wp handleSaveConfig
              (fun s' _ =>
                 isLoading (app s') = false
                 /\ (step (app s') = PROMPT \/ step (app s') = step (app s)))
              s).
    unfold handleSaveConfig. steps; page; cbn; auto.
  - intros Hprompt.
    change (wp handleGenerate
              (fun s' _ =>
                 isLoading (app s') = false
                 /\ (step (app s') = REVIEW \/ step (app s') = PROMPT)) s).
    unfold handleGenerate. apply wp_bind, wp_getApp. cbv beta iota.
    rewrite Hprompt. cbn [negb]. steps; page; cbn; auto.
  - intros Hproject Huser.
    destruct (project (app s)) as [p|] eqn:Hp; [clear Hproject | congruence].
    change (wp handleDeploy
              (fun s' _ =>
                 isLoading (app s') = false
                 /\ (step (app s') = SUCCESS \/ step (app s') = REVIEW)) s).
    apply (wp_handleDeploy s p _ Hp Huser).
    apply wp_try_finally, wp_try_catch.
    eapply wp_mono; [|apply deploySteps_outcome].
    intros s' [[]|e] (new & events & _ & _ & _ & _ & _ & _ & _ & _ & Hstep);
      steps; page; cbn; auto.
    destruct Hstep as [-> _]. auto.
Qed.

(** X6. The local storage is written by one operation only, a configuration
    whose token was verified: after any operation the stored value is the
    one from before, or the operation is [SaveConfig] and the stored value
    is the configuration now in the state of the page. *)
Theorem perform_storage (act : Action) (s : Sys) :
  localStorage (fst (perform act s)) = localStorage s
  \/ (act = SaveConfig
      /\ localStorage (fst (perform act s))
         = Some (config (app (fst (perform act s))))).
Proof.
  assert (Hwp : forall act',
    wp (perform act')
       (fun s' _ =>
          localStorage s' = localStorage s
          \/ (act' = SaveConfig /\ localStorage s' = Some (config (app s')))) s).
  { intros act'.
    lazymatch goal with |- wp (perform ?a) _ _ => rename a into act0 end.
    through_handlers;
      try (at_leaf; page; first [ now left | now right ]).
    eapply wp_mono; [|apply deploySteps_outcome].
    intros s' [[]|e] (new & events & _ & _ & Hstore & _);
      steps; page; cbn in Hstore; now left. }
  exact (Hwp act).
Qed.

(** X8. A generation that succeeds replaces whatever project was stored by the
    generated one and ends in stage [REVIEW]; it appends the announcement,
    the name of the project and the number of its files, which is the
    length of the list stored, and leaves the local storage alone. *)
Theorem handleGenerate_success (s : Sys) (w : World)
    (generated : GeneratedProject) :
  truthy (trim (prompt (app s))) = true ->
  geminiService (fst (stamp (world s))) (prompt (app s)) "generate"
                (geminiKey (config (app s))) = (w, Normal generated) ->
  exists final new,
    handleGenerate s = (final, Normal tt)
    /\ app final
       = mkAppState REVIEW (config (app s)) (prompt (app s))
           (logs (app s) ++ new) (Some generated)
           (deploymentUrl (app s)) (repoUrl (app s)) false
    /\ narration new
       = [(("Generating project for: " ++ dquote ++ prompt (app s)
              ++ dquote ++ "...")%string, info);
          (("Generated project: " ++ name generated)%string, success);
          (("Created " ++ showNat (length (files generated))
              ++ " files.")%string, info)]
    /\ localStorage final = localStorage s.
Proof.
  intros Hprompt Hgen.
  unfold handleGenerate, bind at 1, getApp. rewrite Hprompt. cbn [negb].
  unfold try_finally, try_catch, generateProjectCode, bind, setStep,
    setIsLoading, setProject, modify_app.
  cbn. rewrite addLog_run. cbn. unfold ask. cbn. rewrite Hgen. cbn.
  rewrite !addLog_run. cbn.
  eexists. eexists. split; [reflexivity|]. cbn.
  split.
  - unfold logged. cbn. rewrite <- !app_assoc. cbn. reflexivity.
  - repeat split.
Qed.

(** X9. Without a project, or without a GitHub user name in the
    configuration, [handleDeploy] does nothing at all. *)
Theorem handleDeploy_guard (s : Sys) :
  project (app s) = None \/ githubUsername (config (app s)) = EmptyString ->
  handleDeploy s = (s, Normal tt).
Proof.
  intros [Hproject | Huser]; unfold handleDeploy, bind, getApp.
  - now rewrite Hproject.
  - rewrite Huser. now destruct (project (app s)).
Qed.
End Cases.

Section DeployCases.
Context `{Environment}.

(** X10. When the repository cannot be created, nothing is pushed: the only
    requests are those of the creation, no progress message is logged, and
    [handleDeploy] ends in stage [REVIEW] with the announcement and the
    error appended and both URLs as they were. *)
Theorem handleDeploy_creation_failure (s failed : Sys)
    (p : GeneratedProject) (e : Error) :
  project (app s) = Some p ->
  truthy (githubUsername (config (app s))) = true ->
  createRepository (githubToken (config (app s))) (name p) (description p)
    (logging (deploying s) "Creating GitHub repository..." info)
  = (failed, Throw e) ->
  exists final new events,
    handleDeploy s = (final, Normal tt)
    /\ step (app final) = REVIEW
    /\ repoUrl (app final) = repoUrl (app s)
    /\ deploymentUrl (app final) = deploymentUrl (app s)
    /\ logs (app final) = logs (app s) ++ new
    /\ narration new = [("Creating GitHub repository...", info); (e, error)]
    /\ trace final = trace s ++ events
    /\ (events
        = [EvFetch (createRequest (githubToken (config (app s))) (name p)
                      (description p))]
        \/ events
           = [EvFetch (createRequest (githubToken (config (app s))) (name p)
                         (description p));
              EvFetch (userRequest (githubToken (config (app s))))]).
Proof.
  intros Hproject Huser Hcreate.
  pose proof (createRepository_requests _ _ _ _ _ _ Hcreate)
    as (events & (Happ & Hstore & Htrace) & Hshape).
  assert (Hwp : wp handleDeploy
    (fun final r =>
       r = Normal tt
       /\ step (app final) = REVIEW
       /\ repoUrl (app final) = repoUrl (app s)
       /\ deploymentUrl (app final) = deploymentUrl (app s)
       /\ (exists new,
             logs (app final) = logs (app s) ++ new
             /\ narration new
                = [("Creating GitHub repository...", info); (e, error)])
       /\ trace final = trace s ++ events) s).
  { apply (wp_handleDeploy s p _ Hproject Huser).
    unfold deploySteps.
    do 5 (step_wp; cbv beta iota).
    apply (wp_known _ _ _ _ _ Hcreate).
    steps. page. repeat split.
    eexists. split; reflexivity. }
  apply wp_result in Hwp
    as (final & r & Hrun & -> & Hstep & Hrepo & Hurl & (new & Hlogs & Hnarr)
        & Hevents).
  exists final, new, events. repeat split; assumption.
Qed.

(** X11. With a Vercel token, when the repository is created, every file is
    pushed and the project is registered, [handleDeploy] ends in stage
    [SUCCESS] with the URL of the repository and, as the deployment URL,
    ["https://<name>.vercel.app"] built from the name of the project,
    whatever the hosting service answered. *)
Theorem handleDeploy_with_hosting (s created pushed : Sys)
    (p : GeneratedProject) (repo : Repo.t) (w : World) (handle : string) :
  project (app s) = Some p ->
  truthy (githubUsername (config (app s))) = true ->
  truthy (vercelToken (config (app s))) = true ->
  createRepository (githubToken (config (app s))) (name p) (description p)
    (logging (deploying s) "Creating GitHub repository..." info)
  = (created, Normal repo) ->
  pushFilesToRepo (githubToken (config (app s)))
    (githubUsername (config (app s))) (name p) (files p)
    (fun msg => addLog msg info) (announced created repo)
  = (pushed, Normal tt) ->
  vercelService
    (world (logging (logging pushed "All files pushed to GitHub." success)
              "Triggering Vercel deployment..." info))
    (vercelToken (config (app s))) (name p)
    (githubUsername (config (app s)) ++ "/" ++ name p)
  = (w, Normal handle) ->
  exists final new,
    handleDeploy s = (final, Normal tt)
    /\ step (app final) = SUCCESS
    /\ repoUrl (app final) = Repo.html_url repo
    /\ deploymentUrl (app final)
       = Some ("https://" ++ name p ++ ".vercel.app")%string
    /\ logs (app final) = logs (app s) ++ new
    /\ narration new = hostedNarration repo (files p).
Proof.
  intros Hproject Huser Htoken Hcreate Hpush Hhost.
  pose proof (createRepository_advance _ _ _ _ _ _ Hcreate)
    as (events1 & (Happ1 & _) & _).
  pose proof (pushFilesToRepo_advance _ _ _ _ _ _ _ Hpush)
    as (lines & events2 & sent & (Happ2 & _) & _ & Hlines & _ & Hsent).
  rewrite (Hsent eq_refl) in Hlines. clear Hsent.
  rewrite announced_app in Happ2.
  assert (Hwp : wp handleDeploy
    (fun final r =>
       r = Normal tt
       /\ step (app final) = SUCCESS
       /\ repoUrl (app final) = Repo.html_url repo
       /\ deploymentUrl (app final)
          = Some ("https://" ++ name p ++ ".vercel.app")%string
       /\ exists new,
            logs (app final) = logs (app s) ++ new
            /\ narration new = hostedNarration repo (files p)) s).
  { apply (wp_handleDeploy s p _ Hproject Huser).
    unfold deploySteps. rewrite Htoken.
    do 5 (step_wp; cbv beta iota).
    apply (wp_known _ _ _ _ _ Hcreate).
    do 5 (step_wp; cbv beta iota).
    apply (wp_known _ _ _ _ _ Hpush).
    do 6 (step_wp; cbv beta iota).
    eapply wp_known;
      [rewrite createVercelProject_run, Hhost; reflexivity|].
    steps. page. repeat split.
    eexists. split; [reflexivity|].
    unfold narration, hostedNarration in *. rewrite !map_app, Hlines.
    reflexivity. }
  apply wp_result in Hwp
    as (final & r & Hrun & -> & Hstep & Hrepo & Hurl & new & Hlogs & Hnarr).
  exists final, new. repeat split; assumption.
Qed.

(** X12. When the hosting service refuses the project after the repository was
    created and the files pushed, [handleDeploy] ends in stage [REVIEW]
    with the error appended; the URL of the repository stays stored and
    the deployment URL is the one from before. *)
Theorem handleDeploy_hosting_failure (s created pushed : Sys)
    (p : GeneratedProject) (repo : Repo.t) (w : World) (e : Error) :
  project (app s) = Some p ->
  truthy (githubUsername (config (app s))) = true ->
  truthy (vercelToken (config (app s))) = true ->
  createRepository (githubToken (config (app s))) (name p) (description p)
    (logging (deploying s) "Creating GitHub repository..." info)
  = (created, Normal repo) ->
  pushFilesToRepo (githubToken (config (app s)))
    (githubUsername (config (app s))) (name p) (files p)
    (fun msg => addLog msg info) (announced created repo)
  = (pushed, Normal tt) ->
  vercelService
    (world (logging (logging pushed "All files pushed to GitHub." success)
              "Triggering Vercel deployment..." info))
    (vercelToken (config (app s))) (name p)
    (githubUsername (config (app s)) ++ "/" ++ name p)
  = (w, Throw e) ->
  exists final new,
    handleDeploy s = (final, Normal tt)
    /\ step (app final) = REVIEW
    /\ repoUrl (app final) = Repo.html_url repo
    /\ deploymentUrl (app final) = deploymentUrl (app s)
    /\ logs (app final) = logs (app s) ++ new
    /\ narration new
       = [("Creating GitHub repository...", info);
          (("Repository created: " ++ showOpt (Repo.html_url repo))%string, success)]
         ++ map (fun file => (("Pushing " ++ path file ++ "...")%string, info))
              (files p)
         ++ [("All files pushed to GitHub.", success);
             ("Triggering Vercel deployment...", info);
             (e, error)].
Proof.
  intros Hproject Huser Htoken Hcreate Hpush Hhost.
  pose proof (createRepository_advance _ _ _ _ _ _ Hcreate)
    as (events1 & (Happ1 & _) & _).
  pose proof (pushFilesToRepo_advance _ _ _ _ _ _ _ Hpush)
    as (lines & events2 & sent & (Happ2 & _) & _ & Hlines & _ & Hsent).
  rewrite (Hsent eq_refl) in Hlines. clear Hsent.
  rewrite announced_app in Happ2.
  assert (Hwp : wp handleDeploy
    (fun final r =>
       r = Normal tt
       /\ step (app final) = REVIEW
       /\ repoUrl (app final) = Repo.html_url repo
       /\ deploymentUrl (app final) = deploymentUrl (app s)
       /\ exists new,
            logs (app final) = logs (app s) ++ new
            /\ narration new
               = [("Creating GitHub repository...", info);
                  (("Repository created: " ++ showOpt (Repo.html_url repo))%string,
                   success)]
                 ++ map (fun file =>
                           (("Pushing " ++ path file ++ "...")%string, info))
                      (files p)
                 ++ [("All files pushed to GitHub.", success);
                     ("Triggering Vercel deployment...", info);
                     (e, error)]) s).
  { apply (wp_handleDeploy s p _ Hproject Huser).
    unfold deploySteps. rewrite Htoken.
    do 5 (step_wp; cbv beta iota).
    apply (wp_known _ _ _ _ _ Hcreate).
    do 5 (step_wp; cbv beta iota).
    apply (wp_known _ _ _ _ _ Hpush).
    do 6 (step_wp; cbv beta iota).
    eapply wp_known;
      [rewrite createVercelProject_run, Hhost; reflexivity|].
    steps. page. repeat split.
    eexists. split; [reflexivity|].
    unfold narration in *. rewrite !map_app, Hlines.
    reflexivity. }
  apply wp_result in Hwp
    as (final & r & Hrun & -> & Hstep & Hrepo & Hurl & new & Hlogs & Hnarr).
  exists final, new. repeat split; assumption.
Qed.
End DeployCases.

(* ================================================================= *)
(** ** The GitHub client, request by request *)

Section Client.
Context `{Environment}.

(** X14. [verifyGithubToken] sends the request for the user and nothing else,
    and leaves the page and the storage alone, however it ends; the login
    it resolves to is the one of a successful answer with a JSON body, and
    an unsuccessful answer makes it throw ["Invalid GitHub Token"]. *)
Theorem verifyGithubToken_answers (token : string) (s : Sys) :
  let run := verifyGithubToken token s in
  app (fst run) = app s
  /\ localStorage (fst run) = localStorage s
  /\ trace (fst run) = trace s ++ [EvFetch (userRequest token)]
  /\ (forall login, snd run = Normal login ->
        exists w response data,
          network (world s) (userRequest token) = (w, Resolved response)
          /\ ok response = true /\ parsed response = inl data
          /\ login = Json.login data)
  /\ (forall w response,
        network (world s) (userRequest token) = (w, Resolved response) ->
        ok response = false -> snd run = Throw "Invalid GitHub Token").
Proof.
  cbn zeta. rewrite verifyGithubToken_run.
  destruct (network (world s) (userRequest token)) as [w [response|e]] eqn:Hnet.
  - repeat split.
    + destruct (ok response) eqn:Hok; [|discriminate].
      destruct (parsed response) as [data|e] eqn:Hbody; [|discriminate].
      intros login [= <-]. now exists w, response, data.
    + intros w0 response0 [= <- <-] Hok. cbn. now rewrite Hok.
  - repeat split; [discriminate|]. intros w0 response0 [=].
Qed.

(** X15. [createRepository] leaves the page and the storage alone and sends the
    creation request alone, or that request followed by the one for the
    user; it sends the second only after an unsuccessful answer whose
    message contains ["name already exists"]. *)
Theorem createRepository_sends (token name description : string) (s : Sys) :
  let run := createRepository token name description s in
  let create := EvFetch (createRequest token name description) in
  app (fst run) = app s
  /\ localStorage (fst run) = localStorage s
  /\ (trace (fst run) = trace s ++ [create]
      \/ trace (fst run) = trace s ++ [create; EvFetch (userRequest token)])
  /\ (trace (fst run) = trace s ++ [create; EvFetch (userRequest token)] ->
      exists w response err m,
        network (world s) (createRequest token name description)
        = (w, Resolved response)
        /\ ok response = false /\ parsed response = inl err
        /\ Json.message err = Some m
        /\ includes m "name already exists" = true).
Proof.
  cbn zeta.
  destruct (createRepository token name description s) as [s' r] eqn:Hrun.
  pose proof (createRepository_requests _ _ _ _ _ _ Hrun)
    as (events & (Happ & Hstore & Htrace) & Hshape).
  cbn [fst]. rewrite loggedAll_nil in Happ.
  split; [exact Happ|]. split; [exact Hstore|].
  split; [rewrite Htrace; destruct Hshape as [-> | ->]; auto|].
  intros Htwo.
  rewrite createRepository_run in Hrun. cbn zeta in Hrun.
  set (request := createRequest token name description) in *.
  assert (Hshort : forall w, s' = fetched s request w -> False).
  { intros w ->. cbn in Htwo. apply app_inv_head in Htwo. discriminate. }
  destruct (network (world s) request) as [w [response|e]];
    [|injection Hrun as <- _; now destruct (Hshort w)].
  destruct (parsed response) as [err|e] eqn:Hbody;
    [|injection Hrun as <- _; now destruct (Hshort w)].
  destruct (ok response) eqn:Hok;
    [injection Hrun as <- _; now destruct (Hshort w)|].
  destruct (Json.message err) as [m|] eqn:Hmessage;
    [|injection Hrun as <- _; now destruct (Hshort w)].
  destruct (truthy m && includes m "name already exists") eqn:Hm;
    [|injection Hrun as <- _; now destruct (Hshort w)].
  apply andb_prop in Hm as [_ Hm].
  now exists w, response, err, m.
Qed.
End Client.

Section PushMore.
Context `{Environment}.
Variables token username repoName : string.
Variable onProgress : string -> M unit.

(** X16. Pushing a list of files is pushing a first part of it and, when that
    completes, the rest from the state it left; when the first part
    throws, the rest is not started. *)
Theorem pushFilesToRepo_app (first rest : list FileNode) (s : Sys) :
  pushFilesToRepo token username repoName (first ++ rest) onProgress s
  = match pushFilesToRepo token username repoName first onProgress s with
    | (s1, Normal _) =>
        pushFilesToRepo token username repoName rest onProgress s1
    | (s1, Throw e) => (s1, Throw e)
    end.
Proof. unfold pushFilesToRepo. apply for_of_app. Qed.

(** X17. A failure of the existence lookup never stops the push of a file
    whose content the browser can encode: whatever the lookup is answered,
    a rejection, an unsuccessful response or a body that is not JSON, the
    upload is sent, and when it is accepted the file is pushed.  The upload
    carries a [sha] exactly when the lookup was answered successfully with
    one. *)
Theorem pushFile_tolerates_lookup (file : FileNode) (s called : Sys)
    (w1 w2 : World) (lookup : FetchResult) (res : Response) :
  onProgress ("Pushing " ++ path file ++ "...")
    (progressed s ("Pushing " ++ path file ++ "..."))
  = (called, Normal tt) ->
  network (world called) (checkRequest token username repoName file)
  = (w1, lookup) ->
  network w1 (putRequest token username repoName file (shaOf lookup))
  = (w2, Resolved res) ->
  ok res = true ->
  pushFile token username repoName onProgress file s
  = (fetched (fetched called (checkRequest token username repoName file) w1)
       (putRequest token username repoName file (shaOf lookup)) w2,
     Normal tt)
  /\ forall v,
       In ("sha", JString v)
          (body (putRequest token username repoName file (shaOf lookup)))
       <-> exists response data,
             lookup = Resolved response /\ ok response = true
             /\ parsed response = inl data /\ Json.sha data = Some v.
Proof.
  intros Hcall Hlookup Hput Hok. split.
  - rewrite pushFile_run. unfold progressMessage. rewrite Hcall. cbn zeta.
    now rewrite Hlookup, Hput, Hok.
  - intros v. unfold putRequest. cbn [body]. split.
    + intros [Hin | [Hin | Hin]]; try discriminate.
      destruct lookup as [response|e]; cbn in Hin; [|contradiction].
      destruct (ok response) eqn:Hrok; [|contradiction].
      destruct (parsed response) as [data|e] eqn:Hbody; [|contradiction].
      destruct (Json.sha data) as [v'|] eqn:Hsha; [|contradiction].
      destruct Hin as [[= ->] | []]. now exists response, data.
    + intros (response & data & -> & Hrok & Hbody & Hsha).
      cbn. rewrite Hrok, Hbody, Hsha. right. right. now left.
Qed.

Hypothesis onProgress_silent :
  forall msg s, trace (fst (onProgress msg s)) = trace s.

(** X18. When [pushFilesToRepo] completes, every file was pushed: the events
    are, for each file in the order of the list, the progress callback,
    the lookup and the upload, and nothing else. *)
Theorem pushFilesToRepo_pushes_all (files : list FileNode) (s s' : Sys) :
  pushFilesToRepo token username repoName files onProgress s
  = (s', Normal tt) ->
  exists events,
    Forall2 (fileEvents token username repoName) files events
    /\ trace s' = trace s ++ concat events
    /\ length (concat events) = 3 * length files.
Proof.
  intros Hrun.
  destruct (pushFilesToRepo_events token username repoName onProgress
              onProgress_silent files s s' Hrun)
    as (events & Hevents & Htrace).
  exists events. split; [exact Hevents|]. split; [exact Htrace|].
  clear Htrace Hrun.
  induction Hevents as [|file first files events (sha & ->) _ IH];
    [reflexivity|].
  cbn [concat length]. rewrite length_app, IH. cbn. lia.
Qed.

(** X19. When the network rejects the upload of a file, [pushFilesToRepo]
    throws the error of the network, not its own, and stops there: the
    events are those of the files before and of that file, and nothing is
    done for the files after. *)
Theorem pushFilesToRepo_aborts_at_rejected_upload
    (pre post : list FileNode) (file : FileNode)
    (s pushed called : Sys) (w1 w2 : World)
    (lookup : FetchResult) (e : Error) :
  pushFilesToRepo token username repoName pre onProgress s
  = (pushed, Normal tt) ->
  onProgress ("Pushing " ++ path file ++ "...")
    (progressed pushed ("Pushing " ++ path file ++ "..."))
  = (called, Normal tt) ->
  network (world called) (checkRequest token username repoName file)
  = (w1, lookup) ->
  network w1 (putRequest token username repoName file (shaOf lookup))
  = (w2, Rejected e) ->
  exists final events,
    pushFilesToRepo token username repoName (pre ++ file :: post) onProgress s
    = (final, Throw e)
    /\ Forall2 (fileEvents token username repoName) (pre ++ [file]) events
    /\ trace final = trace s ++ concat events
    /\ app final = app called.
Proof.
  intros Hpre Hcall Hlookup Hput.
  pose proof (pushFilesToRepo_events token username repoName onProgress
                onProgress_silent pre s pushed Hpre)
    as (events & Hevents & Htrace).
  pose proof (onProgress_silent (progressMessage file)
                (progressed pushed (progressMessage file))) as Hsilent.
  unfold progressMessage in Hsilent. rewrite Hcall in Hsilent.
  cbn in Hsilent.
  exists (fetched (fetched called (checkRequest token username repoName file) w1)
            (putRequest token username repoName file (shaOf lookup)) w2).
  exists (events ++ [[EvProgress (progressMessage file);
                      EvFetch (checkRequest token username repoName file);
                      EvFetch (putRequest token username repoName file
                                 (shaOf lookup))]]).
  split; [|split; [|split; [|reflexivity]]].
  - unfold pushFilesToRepo in *. rewrite for_of_app, Hpre.
    cbn [for_of]. unfold bind at 1.
    rewrite pushFile_run. unfold progressMessage. rewrite Hcall. cbn zeta.
    now rewrite Hlookup, Hput.
  - apply Forall2_app; [exact Hevents|].
    constructor; [now exists (shaOf lookup) | constructor].
  - cbn. rewrite Hsilent, concat_app. cbn. rewrite Htrace.
    now rewrite ?app_nil_r, <- !app_assoc.
Qed.

(** X20. When the progress callback throws for a file, [pushFilesToRepo] throws
    the same error before any request is sent for that file. *)
Theorem pushFilesToRepo_aborts_at_throwing_callback
    (pre post : list FileNode) (file : FileNode)
    (s pushed called : Sys) (e : Error) :
  pushFilesToRepo token username repoName pre onProgress s
  = (pushed, Normal tt) ->
  onProgress ("Pushing " ++ path file ++ "...")
    (progressed pushed ("Pushing " ++ path file ++ "..."))
  = (called, Throw e) ->
  pushFilesToRepo token username repoName (pre ++ file :: post) onProgress s
  = (called, Throw e)
  /\ exists events,
       Forall2 (fileEvents token username repoName) pre events
       /\ trace called
          = trace s ++ concat events
              ++ [EvProgress ("Pushing " ++ path file ++ "...")].
Proof.
  intros Hpre Hcall.
  pose proof (pushFilesToRepo_events token username repoName onProgress
                onProgress_silent pre s pushed Hpre)
    as (events & Hevents & Htrace).
  pose proof (onProgress_silent (progressMessage file)
                (progressed pushed (progressMessage file))) as Hsilent.
  unfold progressMessage in Hsilent. rewrite Hcall in Hsilent.
  cbn in Hsilent.
  split.
  - unfold pushFilesToRepo in *. rewrite for_of_app, Hpre.
    cbn [for_of]. unfold bind at 1.
    rewrite pushFile_run. unfold progressMessage. now rewrite Hcall.
  - exists events. split; [exact Hevents|].
    now rewrite Hsilent, Htrace, <- app_assoc.
Qed.
End PushMore.

(* ================================================================= *)
(** ** The order of a deployment *)

Section DeployOrder.
Context `{Environment}.

Lemma announced_trace (s : Sys) (repo : Repo.t) :
  trace (announced s repo) = trace s.
Proof.
  unfold announced, bind, setRepoUrl, modify_app. now rewrite addLog_run.
Qed.

(** X13. A deployment sends the requests of the creation first and then, for
    each file of the project in order, the lookup and the upload, to the
    repository named after the project under the user name of the
    configuration; whatever is sent after the last upload comes after
    these. *)
Theorem handleDeploy_pushes_after_creating (s created pushed : Sys)
    (p : GeneratedProject) (repo : Repo.t) :
  project (app s) = Some p ->
  truthy (githubUsername (config (app s))) = true ->
  createRepository (githubToken (config (app s))) (name p) (description p)
    (logging (deploying s) "Creating GitHub repository..." info)
  = (created, Normal repo) ->
  pushFilesToRepo (githubToken (config (app s)))
    (githubUsername (config (app s))) (name p) (files p)
    (fun msg => addLog msg info) (announced created repo)
  = (pushed, Normal tt) ->
  exists creation events later,
    trace (fst (handleDeploy s))
    = trace s ++ creation ++ concat events ++ later
    /\ (creation
        = [EvFetch (createRequest (githubToken (config (app s))) (name p)
                      (description p))]
        \/ creation
           = [EvFetch (createRequest (githubToken (config (app s))) (name p)
                         (description p));
              EvFetch (userRequest (githubToken (config (app s))))])
    /\ Forall2 (fileEvents (githubToken (config (app s)))
                  (githubUsername (config (app s))) (name p))
         (files p) events.
Proof.
  intros Hproject Huser Hcreate Hpush.
  pose proof (createRepository_requests _ _ _ _ _ _ Hcreate)
    as (creation & (_ & _ & Htrace1) & Hshape).
  rewrite logging_trace in Htrace1. cbn [deploying withApp trace] in Htrace1.
  pose proof (pushFilesToRepo_events _ _ _ _ (addLog_silent info) _ _ _ Hpush)
    as (events & Hevents & Htrace2).
  rewrite announced_trace, Htrace1, <- app_assoc in Htrace2.
  exists creation, events, []. split; [|now split].
  rewrite app_nil_r, <- Htrace2. clear Htrace1 Htrace2 Hshape Hevents.
  change (wp handleDeploy (fun final _ => trace final = trace pushed) s).
  apply (wp_handleDeploy s p _ Hproject Huser).
  unfold deploySteps.
  do 5 (step_wp; cbv beta iota).
  apply (wp_known _ _ _ _ _ Hcreate).
  do 5 (step_wp; cbv beta iota).
  apply (wp_known _ _ _ _ _ Hpush).
  steps; reflexivity.
Qed.
End DeployOrder.

(* ================================================================= *)
(** ** More of the program on concrete inputs *)

Lemma handlers_settle_witness :
  let s :=
    start [created "hello-world" "https://github.com/octocat/hello-world";
           notFound; uploaded] (Throw "offline") reviewing in
  project (app s) <> None
  /\ truthy (githubUsername (config (app s))) = true
  /\ isLoading (app (fst (@handleDeploy env s))) = false
  /\ step (app (fst (@handleDeploy env s))) = SUCCESS.
Proof.
  intros s.
  destruct (@handlers_settle env s) as (_ & _ & Hdeploy).
  assert (Hproject : project (app s) <> None) by discriminate.
  destruct (Hdeploy Hproject eq_refl) as [Hidle _].
  split; [exact Hproject|]. split; [reflexivity|].
  split; [exact Hidle | reflexivity].
Defined.

Lemma reachable_reviewPanelRendered_witness :
  @reachable env generatedSession
  /\ step (app generatedSession) = REVIEW
  /\ project (app generatedSession) <> None
  /\ resetButtonRendered (app generatedSession) = true.
Proof.
  assert (Hreach : @reachable env generatedSession)
    by (repeat apply @reachable_perform; apply @reachable_mount).
  split; [exact Hreach|]. split; [reflexivity|].
  exact (@reachable_reviewPanelRendered env generatedSession Hreach
           (or_introl eq_refl)).
Defined.

Lemma handleGenerate_success_witness :
  exists final new,
    @handleGenerate env (start [] (Normal helloWorld) prompting)
    = (final, Normal tt)
    /\ step (app final) = REVIEW
    /\ project (app final) = Some helloWorld
    /\ narration new
       = [("Generating project for: " ++ dquote ++ "a blog" ++ dquote ++ "...",
           info)%string;
          ("Generated project: hello-world", success);
          ("Created 1 files.", info)].
Proof.
  edestruct (@handleGenerate_success env
               (start [] (Normal helloWorld) prompting))
    as (final & new & Hrun & Happ & Hnarr & _).
  - reflexivity.
  - lazy; reflexivity.
  - exists final, new. split; [exact Hrun|]. rewrite Happ.
    repeat split. exact Hnarr.
Defined.

Lemma handleDeploy_guard_witness :
  @handleDeploy env (start [] (Throw "offline") idle)
  = (start [] (Throw "offline") idle, Normal tt).
Proof.
  exact (@handleDeploy_guard env (start [] (Throw "offline") idle)
           (or_introl eq_refl)).
Defined.

Lemma handleDeploy_creation_failure_witness :
  exists (final : @Sys env) (new : list LogEntry) (events : list Event),
    @handleDeploy env (start [unauthorized] (Throw "offline") reviewing)
    = (final, Normal tt)
    /\ step (app final) = REVIEW
    /\ repoUrl (app final) = None
    /\ narration new
       = [("Creating GitHub repository...", info);
          ("GitHub Create Repo Error: Bad credentials", error)]
    /\ trace final = events
    /\ length events = 1.
Proof.
  edestruct (@handleDeploy_creation_failure env)
    with (s := start [unauthorized] (Throw "offline") reviewing)
         (p := helloWorld)
         (e := "GitHub Create Repo Error: Bad credentials")
    as (final & new & events & Hrun & Hstep & Hrepo & _ & _ & Hnarr & Htrace
        & Hshape).
  - reflexivity.
  - reflexivity.
  - lazy; reflexivity.
  - exists final, new, events. repeat split; try assumption.
    destruct Hshape as [-> | ->]; [reflexivity|].
    exfalso. revert Hrun Htrace. clear.
    intros Hrun. lazy in Hrun. injection Hrun as <-. discriminate.
Defined.

Lemma handleDeploy_with_hosting_witness :
  exists final,
    @handleDeploy env
      (startHosted
         [created "hello-world" "https://github.com/octocat/hello-world";
          notFound; uploaded] (Normal "prj_1") reviewingHosted)
    = (final, Normal tt)
    /\ step (app final) = SUCCESS
    /\ repoUrl (app final) = Some "https://github.com/octocat/hello-world"
    /\ deploymentUrl (app final) = Some "https://hello-world.vercel.app"
    /\ length (logs (app final)) = 7.
Proof.
  edestruct (@handleDeploy_with_hosting env)
    with (s := startHosted
                 [created "hello-world" "https://github.com/octocat/hello-world";
                  notFound; uploaded] (Normal "prj_1") reviewingHosted)
         (p := helloWorld)
         (repo := Repo.mk "hello-world"
                           (Some "https://github.com/octocat/hello-world"))
         (handle := "prj_1")
    as (final & new & Hrun & Hstep & Hrepo & Hurl & Hlogs & Hnarr).
  - reflexivity.
  - reflexivity.
  - reflexivity.
  - lazy; reflexivity.
  - lazy; reflexivity.
  - lazy; reflexivity.
  - exists final. repeat split; try assumption.
    apply (f_equal (@length _)) in Hnarr. unfold narration in Hnarr.
    rewrite length_map in Hnarr. rewrite Hlogs. exact Hnarr.
Defined.

Lemma handleDeploy_hosting_failure_witness :
  exists final,
    @handleDeploy env
      (startHosted
         [created "hello-world" "https://github.com/octocat/hello-world";
          notFound; uploaded] (Throw "Vercel said no") reviewingHosted)
    = (final, Normal tt)
    /\ step (app final) = REVIEW
    /\ repoUrl (app final) = Some "https://github.com/octocat/hello-world"
    /\ deploymentUrl (app final) = None
    /\ length (logs (app final)) = 6.
Proof.
  edestruct (@handleDeploy_hosting_failure env)
    with (s := startHosted
                 [created "hello-world" "https://github.com/octocat/hello-world";
                  notFound; uploaded] (Throw "Vercel said no") reviewingHosted)
         (p := helloWorld)
         (repo := Repo.mk "hello-world"
                           (Some "https://github.com/octocat/hello-world"))
         (e := "Vercel said no")
    as (final & new & Hrun & Hstep & Hrepo & Hurl & Hlogs & Hnarr).
  - reflexivity.
  - reflexivity.
  - reflexivity.
  - lazy; reflexivity.
  - lazy; reflexivity.
  - lazy; reflexivity.
  - exists final. repeat split; try assumption.
    apply (f_equal (@length _)) in Hnarr. unfold narration in Hnarr.
    rewrite length_map in Hnarr. rewrite Hlogs. exact Hnarr.
Defined.

(** The lookup is dropped by the network and the upload goes through. *)
Lemma pushFile_tolerates_lookup_witness :
  snd (@pushFile env "ghp_1" "octocat" "hello-world"
         (fun msg => @addLog env msg info)
         (mkFileNode "index.html" "<html></html>")
         (start [dropped; uploaded] (Throw "offline") reviewing))
  = Normal tt.
Proof.
  edestruct (@pushFile_tolerates_lookup env "ghp_1" "octocat" "hello-world"
               (fun msg => @addLog env msg info)
               (mkFileNode "index.html" "<html></html>")
               (start [dropped; uploaded] (Throw "offline") reviewing))
    as [Hrun _].
  - lazy; reflexivity.
  - lazy; reflexivity.
  - lazy; reflexivity.
  - reflexivity.
  - now rewrite Hrun.
Defined.

Lemma pushFilesToRepo_pushes_all_witness :
  exists final events,
    @pushFilesToRepo env "ghp_1" "octocat" "hello-world" threeFiles
      (fun msg => @addLog env msg info)
      (start [notFound; uploaded; found "3a1"; uploaded; dropped; uploaded]
             (Throw "offline") reviewing)
    = (final, Normal tt)
    /\ Forall2 (@fileEvents env "ghp_1" "octocat" "hello-world") threeFiles
         events
    /\ trace final = concat events
    /\ length (trace final) = 9.
Proof.
  edestruct (@pushFilesToRepo_pushes_all env "ghp_1" "octocat" "hello-world"
               (fun msg => @addLog env msg info) (fun msg s => eq_refl)
               threeFiles
               (start [notFound; uploaded; found "3a1"; uploaded; dropped;
                       uploaded] (Throw "offline") reviewing))
    as (events & Hevents & Htrace & Hlength).
  - lazy; reflexivity.
  - eexists. exists events. split; [lazy; reflexivity|].
    split; [exact Hevents|]. split; [exact Htrace|].
    rewrite Htrace. exact Hlength.
Defined.

Lemma pushFilesToRepo_aborts_at_rejected_upload_witness :
  exists final events,
    @pushFilesToRepo env "ghp_1" "octocat" "hello-world" threeFiles
      (fun msg => @addLog env msg info)
      (start [notFound; uploaded; found "3a1"; dropped]
             (Throw "offline") reviewing)
    = (final, Throw "Failed to fetch")
    /\ Forall2 (@fileEvents env "ghp_1" "octocat" "hello-world")
         [mkFileNode "index.html" "<html></html>";
          mkFileNode "style.css" "body {}"] events
    /\ trace final = concat events.
Proof.
  edestruct (@pushFilesToRepo_aborts_at_rejected_upload env
               "ghp_1" "octocat" "hello-world"
               (fun msg => @addLog env msg info) (fun msg s => eq_refl)
               [mkFileNode "index.html" "<html></html>"]
               [mkFileNode "app.js" "main()"]
               (mkFileNode "style.css" "body {}")
               (start [notFound; uploaded; found "3a1"; dropped]
                      (Throw "offline") reviewing))
    as (final & events & Hrun & Hevents & Htrace & _).
  - lazy; reflexivity.
  - lazy; reflexivity.
  - lazy; reflexivity.
  - lazy; reflexivity.
  - exists final, events. repeat split; assumption.
Defined.

Lemma fussy_silent (msg : string) (s : @Sys env) :
  trace (fst (fussy msg s)) = trace s.
Proof. unfold fussy. now destruct (includes msg ".css"). Qed.

Lemma pushFilesToRepo_aborts_at_throwing_callback_witness :
  exists final,
    @pushFilesToRepo env "ghp_1" "octocat" "hello-world" threeFiles fussy
      (start [notFound; uploaded] (Throw "offline") reviewing)
    = (final, Throw "no style sheets")
    /\ length (trace final) = 4.
Proof.
  edestruct (@pushFilesToRepo_aborts_at_throwing_callback env
               "ghp_1" "octocat" "hello-world" fussy fussy_silent
               [mkFileNode "index.html" "<html></html>"]
               [mkFileNode "app.js" "main()"]
               (mkFileNode "style.css" "body {}")
               (start [notFound; uploaded] (Throw "offline") reviewing))
    as (Hrun & events & Hevents & Htrace).
  - lazy; reflexivity.
  - lazy; reflexivity.
  - eexists. split; [exact Hrun|].
    rewrite Htrace. inversion Hevents as [|? first ? rest (sha & ->) Hrest];
      subst. inversion Hrest; subst. reflexivity.
Defined.

Lemma handleDeploy_pushes_after_creating_witness :
  exists creation events later,
    trace (fst (@handleDeploy env
                  (start [created "hello-world" "https://github.com/octocat/hello-world";
                          notFound; uploaded] (Throw "offline") reviewing)))
    = creation ++ concat events ++ later
    /\ length creation = 1
    /\ Forall2 (@fileEvents env "ghp_1" "octocat" "hello-world")
         [mkFileNode "index.html" "<html>...</html>"] events.
Proof.
  edestruct (@handleDeploy_pushes_after_creating env)
    with (s := start [created "hello-world" "https://github.com/octocat/hello-world";
                      notFound; uploaded] (Throw "offline") reviewing)
         (p := helloWorld)
         (repo := Repo.mk "hello-world"
                           (Some "https://github.com/octocat/hello-world"))
    as (creation & events & later & Htrace & Hshape & Hevents).
  - reflexivity.
  - reflexivity.
  - lazy; reflexivity.
  - lazy; reflexivity.
  - exists creation, events, later.
    split; [exact Htrace|]. split; [|exact Hevents].
    destruct Hshape as [-> | ->]; [reflexivity|].
    exfalso. inversion Hevents as [|? first ? rest (sha & ->) Hrest]; subst.
    inversion Hrest; subst. clear - Htrace. lazy in Htrace. discriminate.
Defined.
